(** * AI Public Speaking Coach: the feature-extraction and inference pipeline

    A shallow embedding of [app.py]: the MFCC padding/truncation of
    [extract_features_from_path], the advisory table of [get_feedback],
    the TFLite call sequence of [run_tflite_inference] and the page script
    that ties them together, followed by the properties of the
    specification that were checked against them.

    The numerical libraries the script calls (librosa's decoder and MFCC,
    the TFLite graph) are opaque: they enter as parameters.  What the
    script does around them is modelled in full. *)

From Stdlib Require Import QArith.
From stdpp Require Import base option list strings gmap.

Local Open Scope string_scope.
Local Open Scope list_scope.
Local Open Scope nat_scope.

(** ** Floating-point values

    The script never does arithmetic on array entries itself; it only
    needs the constant [0.0] (the fill value of [np.pad]), the conversion
    of [astype(np.float32)] and the comparison [np.argmax] uses.  The
    entries are therefore kept abstract, with the IEEE comparison laws:
    [fle] is a total preorder on the values that compare with themselves,
    and a NaN compares with nothing. *)

Class FloatOps (F : Type) := {
  fzero : F;
  fle : F -> F -> bool;
  astype_float32 : F -> F;
  fle_self : forall x y, fle x y = true -> fle x x = true /\ fle y y = true;
  fle_trans : forall x y z, fle x y = true -> fle y z = true -> fle x z = true;
  fle_total : forall x y, fle x x = true -> fle y y = true ->
                          fle x y = true \/ fle y x = true
}.

(** [npy_isnan]: a NaN is the one value that differs from itself. *)
Definition isnan {F} {FO : FloatOps F} (x : F) : bool := negb (fle x x).

(** [x == y] on floats. *)
Definition feq {F} {FO : FloatOps F} (x y : F) : bool := fle x y && fle y x.

(** [x < y] on floats. *)
Definition flt {F} {FO : FloatOps F} (x y : F) : bool := fle x y && negb (fle y x).

(** A concrete carrier: the rationals with one NaN.  Every finite
    [float32] is a dyadic rational, and on those the IEEE order is the
    order of [Q]. *)
Inductive qfloat : Type :=
  | QFin (q : Q)
  | QNaN.

Definition qfle (x y : qfloat) : bool :=
  match x, y with
  | QFin a, QFin b => Qle_bool a b
  | _, _ => false
  end.

(** ** Exceptions

    Every failure the script handles is caught by [except Exception]; an
    exception is represented by the text [str(e)] that the handlers print. *)
Inductive exn : Type :=
  | Exception (msg : string).

Definition exn_str (e : exn) : string :=
  match e with Exception msg => msg end.

(** ** numpy *)

Module np.
Section Arrays.
Context {F : Type} {FO : FloatOps F}.

(** A rank-2 array is the list of its rows. *)
Definition ndarray2 : Type := list (list F).
Definition ndarray4 : Type := list (list (list (list F))).

(** [a.shape[1]] *)
Definition shape1 (a : ndarray2) : nat := length (hd [] a).

(** [a] is a well-formed array of shape [(r, c)]. *)
Definition has_shape2 (r c : nat) (a : ndarray2) : Prop :=
  length a = r /\ Forall (fun row => length row = c) a.

Definition has_shape4 (b r c ch : nat) (t : ndarray4) : Prop :=
  length t = b /\
  Forall (fun m => length m = r /\
    Forall (fun row => length row = c /\
      Forall (fun cell => length cell = ch) row) m) t.

(** [np.pad(a, pad_width=((0, 0), (0, after)), mode='constant')] *)
Definition pad_right (a : ndarray2) (after : nat) : ndarray2 :=
  map (fun row => row ++ replicate after fzero) a.

(** [a[:, :stop]] *)
Definition slice_cols (a : ndarray2) (stop : nat) : ndarray2 :=
  map (take stop) a.

(** [a[np.newaxis, ..., np.newaxis]] *)
Definition expand_batch_channel (a : ndarray2) : ndarray4 :=
  [map (map (fun x => [x])) a].

(** [t.astype(np.float32)] *)
Definition astype32 (t : ndarray4) : ndarray4 :=
  map (map (map (map astype_float32))) t.

(** The scan of [np.argmax] over a float vector: [mp] is the running
    maximum, [max_ind] its index, [i] the index of the head of [ip].
    An entry replaces the maximum when [not (entry <= mp)]; a NaN ends
    the scan at once. *)
Fixpoint argmax_scan (mp : F) (max_ind i : nat) (ip : list F) : nat :=
  match ip with
  | [] => max_ind
  | x :: ip' =>
      if negb (fle x mp)
      then (if isnan x then i else argmax_scan x i (S i) ip')
      else argmax_scan mp max_ind (S i) ip'
  end.

(** [np.argmax(v)]; an empty vector raises [ValueError]. *)
Definition argmax (v : list F) : exn + nat :=
  match v with
  | [] => inl (Exception "attempt to get argmax of an empty sequence")
  | x :: ip => inr (if isnan x then 0 else argmax_scan x 0 1 ip)
  end.
End Arrays.
End np.

(** ** Python built-ins used by the script *)

Module py.
(** [sorted(l)] on strings: a stable sort by code point. *)
Fixpoint insort (x : string) (l : list string) : list string :=
  match l with
  | [] => [x]
  | y :: l' => if String.ltb x y then x :: y :: l' else y :: insort x l'
  end.

Definition sorted (l : list string) : list string :=
  fold_left (fun acc x => insort x acc) l [].

Definition upper_ascii (c : Ascii.ascii) : Ascii.ascii :=
  let n := Ascii.nat_of_ascii c in
  if (97 <=? n) && (n <=? 122) then Ascii.ascii_of_nat (n - 32) else c.

Definition lower_ascii (c : Ascii.ascii) : Ascii.ascii :=
  let n := Ascii.nat_of_ascii c in
  if (65 <=? n) && (n <=? 90) then Ascii.ascii_of_nat (n + 32) else c.

Fixpoint lower (s : string) : string :=
  match s with
  | EmptyString => EmptyString
  | String c s' => String (lower_ascii c) (lower s')
  end.

(** [s.capitalize()] on ASCII text. *)
Definition capitalize (s : string) : string :=
  match s with
  | EmptyString => EmptyString
  | String c s' => String (upper_ascii c) (lower s')
  end.

(** A dict display [{k1: v1, ..., kn: vn}]: entries are stored left to
    right, a repeated key keeping the last value. *)
Definition dict_literal (entries : list (string * string)) : gmap string string :=
  fold_left (fun d kv => <[kv.1 := kv.2]> d) entries ∅.

(** [d.get(key, default)] *)
Definition dict_get (d : gmap string string) (key default : string) : string :=
  match d !! key with
  | Some v => v
  | None => default
  end.

(** [os.path.join(a, b)] on a POSIX host. *)
Definition os_path_join (a b : string) : string := a +:+ "/" +:+ b.
End py.

(** ** Runs that may raise

    A computation over a world [W] either returns a value or raises, and
    in both cases leaves a world behind: what was done before an exception
    stays done. *)

Definition M (W A : Type) : Type := W -> (exn + A) * W.

#[global] Instance M_ret {W} : MRet (M W) := fun A a w => (inr a, w).

#[global] Instance M_bind {W} : MBind (M W) := fun A B k m w =>
  match m w with
  | (inr a, w') => k a w'
  | (inl e, w') => (inl e, w')
  end.

Definition raise {W A} (e : exn) : M W A := fun w => (inl e, w).

(** The outcome of a call that does not touch the world. *)
Definition lift {W A} (r : exn + A) : M W A := fun w => (r, w).

(** [try: body except Exception as e: handler(e)] *)
Definition try_except {W A} (body : M W A) (handler : exn -> M W A) : M W A :=
  fun w => match body w with
           | (inr a, w') => (inr a, w')
           | (inl e, w') => handler e w'
           end.

Definition bytes : Type := list Byte.byte.

(** ** The application *)

Module app.
Import np py.

(** *** Constants *)

Definition TFLITE_MODEL_PATH : string := os_path_join "models" "model.tflite".

Definition EMOTION_LABELS : list string :=
  sorted ["angry"; "calm"; "disgust"; "fearful"; "happy"; "neutral"; "sad"; "surprised"].

(** Default arguments of [extract_features_from_path]. *)
Definition default_sr : Z := 22050%Z.
Definition default_n_mfcc : nat := 40.
Definition default_max_pad_len : nat := 862.

(** *** get_feedback *)

Definition feedback_dict : gmap string string :=
  dict_literal [
    ("angry", "🔥 Terdeteksi marah. Suara Anda terdengar tegas. Untuk beberapa konteks, ini bagus untuk penekanan. Namun, untuk audiens umum, coba bicara dengan intonasi lebih kalem dan hindari tekanan berlebih.");
    ("happy", "😊 Bagus! Suaramu terdengar menyenangkan dan bersemangat. Energi positif seperti ini sangat menular ke audiens. Pertahankan!");
    ("sad", "💧 Terdeteksi sedih. Jika ini disengaja untuk story-telling, ini efektif. Jika tidak, coba tingkatkan semangat dan naikkan intonasi untuk menjaga perhatian audiens.");
    ("neutral", "😐 Netral. Suara Anda terdengar jelas namun kurang menunjukkan emosi. Coba tambahkan lebih banyak variasi intonasi (naik-turun) agar tidak terdengar datar dan lebih menarik.");
    ("fearful", "😨 Terdeteksi takut atau gugup. Ini wajar. Tenangkan diri sebelum bicara, ambil napas dalam, dan latih artikulasi Anda. Berbicara sedikit lebih lambat bisa membantu.");
    ("calm", "🧘 Sangat baik! Suara Anda terdengar tenang, terkontrol, dan nyaman untuk didengar. Ini menciptakan suasana yang meyakinkan dan dapat dipercaya.");
    ("surprised", "😮 Terdengar terkejut. Emosi ini sangat bagus untuk digunakan sebagai penekanan pada poin-poin penting atau saat menyampaikan sesuatu yang tidak terduga untuk membangun klimaks.");
    ("disgust", "🤢 Terdeteksi emosi negatif (jijik/tidak suka). Hati-hati dengan nada ini karena bisa membuat audiens merasa tidak nyaman atau tersinggung. Pastikan nada Anda sesuai dengan pesan yang ingin disampaikan.")
  ].

Definition fallback_feedback : string :=
  "Latih lagi artikulasi dan emosi agar lebih meyakinkan.".

Definition get_feedback (label : string) : string :=
  dict_get feedback_dict label fallback_feedback.

(** *** The world the script runs in

    The script reads and writes files, drives one TFLite interpreter and
    emits Streamlit elements.  A run is a function of the world; the
    [trace] records, in order, the elements emitted and the library calls
    with an effect outside the process. *)

(** How the host answers the file operations of lines 99-101: the scratch
    file is created, written and closed; or it cannot be created at all;
    or it is created and the write, or the flush when it is closed,
    raises, which leaves the file behind with [partial] in it
    ([delete=False]). *)
Inductive scratch_outcome : Type :=
  | scratch_written
  | scratch_not_created (e : exn)
  | scratch_write_failed (e : exn) (partial : bytes).

Section Pipeline.
Context {F : Type} {FO : FloatOps F}.
(** The state of the interpreter's tensor arena. *)
Context {IState : Type}.

Inductive event : Type :=
  | st_set_page_config
  | st_error (body : string)
  | st_info (body : string)
  | st_warning (body : string)
  | st_title (body : string)
  | st_markdown (body : string)
  | st_sidebar_header (body : string)
  | st_sidebar_file_uploader
  | st_sidebar_markdown (body : string)
  | st_header (body : string)
  | st_audio (data : bytes)
  | st_subheader (body : string)
  | st_metric (label value delta : string)
  | st_success (body : string)
  | st_bar_chart (rows : list (string * F))
  | tempfile_created (path : string)
  | os_removed (path : string)
  | interpreter_invoked.

Record world : Type := mkWorld {
  fs : gmap string bytes;
  arena : option IState;
  trace : list event
}.

(** A TFLite interpreter: its methods over the tensor arena.  The model
    takes a rank-4 input tensor and produces a rank-2 (batch by class)
    output tensor. *)
Record Interpreter : Type := mkInterpreter {
  initial_arena : IState;
  allocate_tensors : IState -> exn + IState;
  get_input_details : list nat;
  get_output_details : list nat;
  set_tensor : nat -> ndarray4 (F:=F) -> IState -> exn + IState;
  invoke : IState -> exn + IState;
  get_tensor : nat -> IState -> exn + ndarray2 (F:=F)
}.

(** What the host and the opaque libraries decide. *)
Record Env : Type := mkEnv {
  (** [librosa.load]'s decoder, on the file content, [sr] and [duration] *)
  librosa_decode : bytes -> Z -> Q -> exn + (list F * Z);
  (** [librosa.feature.mfcc(y, sr, n_mfcc)] *)
  librosa_feature_mfcc : list F -> Z -> nat -> exn + ndarray2 (F:=F);
  (** the flatbuffer parser behind [tf.lite.Interpreter(model_path)] *)
  tflite_parse : bytes -> exn + Interpreter;
  (** the name [tempfile.NamedTemporaryFile] picks for a suffix *)
  tempfile_name : gmap string bytes -> string -> string;
  (** what becomes of creating that file and writing the buffer to it *)
  tempfile_write : gmap string bytes -> string -> bytes -> scratch_outcome;
  (** [f"{confidence*100:.2f}"] *)
  format_percent : F -> string
}.

Definition emit (ev : event) : M world unit :=
  fun w => (inr tt, mkWorld (fs w) (arena w) (trace w ++ [ev])).

(** [l[i]], raising [IndexError] out of range. *)
Definition index {A} (l : list A) (i : nat) : M world A :=
  match l !! i with
  | Some x => mret x
  | None => raise (Exception "list index out of range")
  end.

(** A method of the interpreter that updates its arena. *)
Definition on_arena (f : IState -> exn + IState) : M world unit :=
  fun w => match arena w with
           | None => (inl (Exception "interpreter not constructed"), w)
           | Some a => match f a with
                       | inl e => (inl e, w)
                       | inr a' => (inr tt, mkWorld (fs w) (Some a') (trace w))
                       end
           end.

(** A method of the interpreter that reads its arena. *)
Definition of_arena {A} (f : IState -> exn + A) : M world A :=
  fun w => match arena w with
           | None => (inl (Exception "interpreter not constructed"), w)
           | Some a => (f a, w)
           end.


Variable env : Env.

(** *** Library calls that touch the world *)

(** [librosa.load(file_path, sr=sr, duration=duration)] *)
Definition librosa_load (file_path : string) (sr : Z) (duration : Q)
  : M world (list F * Z) :=
  fun w => match fs w !! file_path with
           | None => (inl (Exception ("[Errno 2] No such file or directory: '"
                                       +:+ file_path +:+ "'")), w)
           | Some content => (librosa_decode env content sr duration, w)
           end.

(** [tf.lite.Interpreter(model_path=model_path)] *)
Definition tf_lite_Interpreter (model_path : string) : M world Interpreter :=
  fun w => match fs w !! model_path with
           | None => (inl (Exception ("Could not open '" +:+ model_path +:+ "'.")), w)
           | Some content =>
               match tflite_parse env content with
               | inl e => (inl e, w)
               | inr it => (inr it, mkWorld (fs w) (Some (initial_arena it)) (trace w))
               end
           end.

(** [with tempfile.NamedTemporaryFile(delete=False, suffix=suffix) as fp:
       fp.write(data); temp_path = fp.name]

    Nothing guards these lines: an exception of the file operations
    leaves the script, and a file that was created stays. *)
Definition NamedTemporaryFile_write (suffix : string) (data : bytes) : M world string :=
  fun w => let name := tempfile_name env (fs w) suffix in
           let created := <[name := []]> (fs w) in
           match tempfile_write env (fs w) name data with
           | scratch_written =>
               (inr name, mkWorld (<[name := data]> created) (arena w)
                                  (trace w ++ [tempfile_created name]))
           | scratch_not_created e => (inl e, w)
           | scratch_write_failed e partial =>
               (inl e, mkWorld (<[name := partial]> created) (arena w)
                               (trace w ++ [tempfile_created name]))
           end.

(** [os.remove(path)] *)
Definition os_remove (path : string) : M world unit :=
  fun w => match fs w !! path with
           | None => (inl (Exception ("[Errno 2] No such file or directory: '"
                                       +:+ path +:+ "'")), w)
           | Some _ => (inr tt, mkWorld (delete path (fs w)) (arena w)
                                         (trace w ++ [os_removed path]))
           end.

(** [pd.DataFrame({'Probabilitas': prediction, 'Emosi': labels}).set_index('Emosi')] *)
Definition DataFrame (prediction : list F) (labels : list string)
  : M world (list (string * F)) :=
  if length prediction =? length labels
  then mret (zip labels prediction)
  else raise (Exception "All arrays must be of the same length").

(** *** The functions of the script

    [@st.cache_resource] and [@st.cache_data] replay an earlier result on
    a later run of the script; one run is modelled, so each function body
    is executed when it is called. *)

Definition load_tflite_model : M world (option Interpreter) :=
  try_except
    (interpreter ← tf_lite_Interpreter TFLITE_MODEL_PATH;
     on_arena (allocate_tensors interpreter);;
     mret (Some interpreter))
    (fun e =>
       emit (st_error ("Error saat memuat model TFLite di '" +:+ TFLITE_MODEL_PATH
                       +:+ "': " +:+ exn_str e));;
       emit (st_info "Pastikan Anda sudah menjalankan skrip 'convert_to_tflite.py' terlebih dahulu.");;
       mret None).

(** The model artifact is missing or malformed: constructing the
    interpreter, or allocating its tensors, raises [e]. *)
Definition model_load_fails (w : world) (e : exn) : Prop :=
  (fs w !! TFLITE_MODEL_PATH = None /\
   e = Exception ("Could not open '" +:+ TFLITE_MODEL_PATH +:+ "'.")) \/
  (exists content, fs w !! TFLITE_MODEL_PATH = Some content /\
     (tflite_parse env content = inl e \/
      exists interpreter,
        tflite_parse env content = inr interpreter /\
        allocate_tensors interpreter (initial_arena interpreter) = inl e)).

(** The fixed-length normalisation of lines 43-47. *)
Definition fix_length (mfcc : ndarray2) (max_pad_len : nat) : ndarray2 :=
  if shape1 mfcc <? max_pad_len
  then let pad_width := max_pad_len - shape1 mfcc in
       pad_right mfcc pad_width
  else slice_cols mfcc max_pad_len.

Definition extract_features_from_path (file_path : string)
    (sr : Z) (n_mfcc max_pad_len : nat) : M world (option ndarray2) :=
  try_except
    ('(audio, sample_rate) ← librosa_load file_path sr 3;
     mfcc ← lift (librosa_feature_mfcc env audio sample_rate n_mfcc);
     mret (Some (fix_length mfcc max_pad_len)))
    (fun e =>
       emit (st_error ("Error saat memproses file audio: " +:+ exn_str e));;
       mret None).

(** The source decodes: the file is there, the decoder accepts it and
    the MFCC computation yields [mfcc]. *)
Definition decodes_to (w : world) (file_path : string) (sr : Z) (n_mfcc : nat)
    (mfcc : ndarray2 (F:=F)) : Prop :=
  exists content audio sample_rate,
    fs w !! file_path = Some content /\
    librosa_decode env content sr 3 = inr (audio, sample_rate) /\
    librosa_feature_mfcc env audio sample_rate n_mfcc = inr mfcc.

(** The source does not decode: one of the two library calls raises [e]. *)
Definition decode_fails (w : world) (file_path : string) (sr : Z) (n_mfcc : nat)
    (e : exn) : Prop :=
  (fs w !! file_path = None /\
   e = Exception ("[Errno 2] No such file or directory: '" +:+ file_path +:+ "'")) \/
  (exists content, fs w !! file_path = Some content /\
     (librosa_decode env content sr 3 = inl e \/
      exists audio sample_rate,
        librosa_decode env content sr 3 = inr (audio, sample_rate) /\
        librosa_feature_mfcc env audio sample_rate n_mfcc = inl e)).

(** [interpreter_invoked] marks the call of [interpreter.invoke()] in the
    trace. *)
Definition run_tflite_inference (interpreter : Interpreter)
    (input_data : ndarray4) : M world (list F) :=
  let input_details := get_input_details interpreter in
  let output_details := get_output_details interpreter in
  input_index ← index input_details 0;
  on_arena (set_tensor interpreter input_index input_data);;
  emit interpreter_invoked;;
  on_arena (invoke interpreter);;
  output_index ← index output_details 0;
  output_data ← of_arena (get_tensor interpreter output_index);
  index output_data 0.

(** *** The page script *)

(** Line 107: [features[np.newaxis, ..., np.newaxis].astype(np.float32)] *)
Definition make_input (features : ndarray2) : ndarray4 :=
  astype32 (expand_batch_channel features).

(** Lines 115-116: [idx_max] and [emosi_dominan]. *)
Definition dominant_label (prediction : list F) : exn + (nat * string) :=
  match argmax prediction with
  | inl e => inl e
  | inr idx_max =>
      match EMOTION_LABELS !! idx_max with
      | Some emosi_dominan => inr (idx_max, emosi_dominan)
      | None => inl (Exception "list index out of range")
      end
  end.

(** Lines 111-135: the two result columns. *)
Definition show_results (prediction : list F) : M world unit :=
  emit (st_subheader "🧠 Emosi Dominan");;
  '(idx_max, emosi_dominan) ← lift (dominant_label prediction);
  confidence ← index prediction idx_max;
  emit (st_metric "Emosi Terkuat Terdeteksi" (capitalize emosi_dominan)
                  (format_percent env confidence +:+ "% Keyakinan"));;
  emit (st_markdown "### 💡 Saran untuk Anda");;
  let feedback := get_feedback emosi_dominan in
  emit (st_success feedback);;
  emit (st_subheader "📈 Distribusi Emosi");;
  df_emosi ← DataFrame prediction (map capitalize EMOTION_LABELS);
  emit (st_bar_chart df_emosi).

(** Lines 95-135: one uploaded clip through the pipeline.  [st.spinner]
    and [st.columns] only arrange the page and leave no element of their
    own. *)
Definition analyse (interpreter : Interpreter) (data : bytes) : M world unit :=
  emit (st_header "Hasil Analisis");;
  emit (st_audio data);;
  temp_path ← NamedTemporaryFile_write ".wav" data;
  features ← extract_features_from_path temp_path
               default_sr default_n_mfcc default_max_pad_len;
  os_remove temp_path;;
  match features with
  | Some features =>
      let input_data := make_input features in
      prediction ← run_tflite_inference interpreter input_data;
      show_results prediction
  | None => mret tt
  end.

(** One run of the script; [audio_file] is what the upload widget
    returns. *)
Definition main (audio_file : option bytes) : M world unit :=
  emit st_set_page_config;;
  interpreter ← load_tflite_model;
  emit (st_title "⚡ AI Public Speaking Coach");;
  emit (st_markdown "Aplikasi ini sudah dioptimalkan untuk analisis yang lebih cepat menggunakan TensorFlow Lite.");;
  emit (st_sidebar_header "Upload Audio Anda");;
  emit st_sidebar_file_uploader;;
  emit (st_sidebar_markdown "---");;
  emit (st_sidebar_markdown "Crafted with by **Raihan & Reynanda**");;
  match interpreter with
  | None => emit (st_warning "Aplikasi belum siap. Model TFLite tidak dapat dimuat.")
  | Some interpreter =>
      match audio_file with
      | Some data => analyse interpreter data
      | None => emit (st_info "Silakan upload file audio untuk memulai analisis.")
      end
  end.

(** *** Outcomes of the opaque calls, as the script meets them *)

(** The model artifact is there, parses to [interpreter], and its tensors
    are allocated, leaving the arena [a0]. *)
Definition model_loads (w : world) (interpreter : Interpreter) (a0 : IState) : Prop :=
  exists content,
    fs w !! TFLITE_MODEL_PATH = Some content /\
    tflite_parse env content = inr interpreter /\
    allocate_tensors interpreter (initial_arena interpreter) = inr a0.

(** The uploaded bytes decode, with the default arguments, to [mfcc]. *)
Definition upload_decodes (data : bytes) (mfcc : ndarray2 (F:=F)) : Prop :=
  exists audio sample_rate,
    librosa_decode env data default_sr 3 = inr (audio, sample_rate) /\
    librosa_feature_mfcc env audio sample_rate default_n_mfcc = inr mfcc.

(** The uploaded bytes do not decode: the decoder or the MFCC call raises
    [e]. *)
Definition upload_undecodable (data : bytes) (e : exn) : Prop :=
  librosa_decode env data default_sr 3 = inl e \/
  exists audio sample_rate,
    librosa_decode env data default_sr 3 = inr (audio, sample_rate) /\
    librosa_feature_mfcc env audio sample_rate default_n_mfcc = inl e.

(** The host creates the scratch file for an upload arriving in [w] and
    writes the whole buffer to it. *)
Definition upload_written (w : world) (data : bytes) : Prop :=
  tempfile_write env (fs w) (tempfile_name env (fs w) ".wav") data = scratch_written.

(** Every run of [m] only appends to the trace, and only events that
    satisfy [P]. *)
Definition only_emits {A} (P : event -> Prop) (m : M world A) : Prop :=
  forall w, exists evs, trace (m w).2 = trace w ++ evs /\ Forall P evs.

(** The elements of the two result columns, and the mark of the
    interpreter call that precedes them. *)
Definition result_event (ev : event) : Prop :=
  match ev with
  | interpreter_invoked | st_subheader _ | st_metric _ _ _
  | st_markdown _ | st_success _ | st_bar_chart _ => True
  | _ => False
  end.

(** The only element extraction can leave on the page. *)
Definition error_event (ev : event) : Prop :=
  match ev with
  | st_error _ => True
  | _ => False
  end.

End Pipeline.

End app.

(** ** A concrete host

    A small stand-in for the libraries, over the rational carrier: the
    decoder rejects a zero-byte file and otherwise yields one sample per
    byte, the MFCC stand-in copies the signal into each coefficient row,
    and the model answers with a fixed class-probability row.  It makes
    the hypotheses of the theorems below checkable on actual runs. *)

Module demo.
Import np app.

Definition sample_of_byte (b : Byte.byte) : qfloat :=
  QFin (Z.of_N (Byte.to_N b) # 256).

Definition decode (content : bytes) (sr : Z) (duration : Q)
  : exn + (list qfloat * Z) :=
  match content with
  | [] => inl (Exception "file is empty")
  | _ => inr (map sample_of_byte content, sr)
  end.

Definition mfcc (y : list qfloat) (sr : Z) (n_mfcc : nat)
  : exn + ndarray2 (F:=qfloat) :=
  inr (replicate n_mfcc y).

(** The output row has its maximum twice, at indices 1 and 4. *)
Definition probabilities : list qfloat :=
  [QFin (1#10); QFin (3#10); QFin (5#100); QFin (5#100);
   QFin (3#10); QFin (1#10); QFin (5#100); QFin (5#100)].

(** The arena holds the input tensor once it is set. *)
Definition slot : Type := option (ndarray4 (F:=qfloat)).

Definition interpreter : Interpreter (F:=qfloat) (IState:=slot) :=
  {| initial_arena := None;
     allocate_tensors := fun a => inr a;
     get_input_details := [0];
     get_output_details := [1];
     set_tensor := fun i t a =>
       if i =? 0 then inr (Some t) else inl (Exception "Cannot set tensor");
     invoke := fun a =>
       match a with
       | Some _ => inr a
       | None => inl (Exception "Input tensor is not set")
       end;
     get_tensor := fun i a =>
       if i =? 1 then inr [probabilities] else inl (Exception "Tensor is unallocated") |}.

Definition parse (content : bytes) : exn + Interpreter :=
  match content with
  | [] => inl (Exception "Model provided has no content")
  | _ => inr interpreter
  end.

Definition env : Env :=
  {| librosa_decode := decode;
     librosa_feature_mfcc := mfcc;
     tflite_parse := parse;
     tempfile_name := fun _ suffix => "/tmp/tmpclip" +:+ suffix;
     tempfile_write := fun _ _ _ => scratch_written;
     format_percent := fun _ => "30.00" |}.


Definition clip : bytes := [Byte.x10; Byte.x80; Byte.xf0].

(** A host with the model artifact and one clip on disk. *)
Definition ready : world (F:=qfloat) (IState:=slot) :=
  mkWorld (<["clip.wav" := clip]> (<[TFLITE_MODEL_PATH := [Byte.x1c]]> ∅))
          (Some None) [].

(** A host whose model artifact is missing. *)
Definition bare : world (F:=qfloat) (IState:=slot) :=
  mkWorld (<["empty.wav" := []]> ∅) None [].
End demo.

(** * Properties *)

(** ** The rational carrier satisfies the comparison laws *)

Lemma qfle_self x y : qfle x y = true -> qfle x x = true /\ qfle y y = true.
Proof.
  destruct x as [a|], y as [b|]; simpl; try discriminate.
  intros _. split; apply Qle_bool_iff, Qle_refl.
Qed.

Lemma qfle_trans x y z : qfle x y = true -> qfle y z = true -> qfle x z = true.
Proof.
  destruct x as [a|], y as [b|], z as [c|]; simpl; try discriminate.
  rewrite !Qle_bool_iff. apply Qle_trans.
Qed.

Lemma qfle_total x y :
  qfle x x = true -> qfle y y = true -> qfle x y = true \/ qfle y x = true.
Proof.
  destruct x as [a|], y as [b|]; simpl; try discriminate.
  intros _ _. rewrite !Qle_bool_iff.
  destruct (Qlt_le_dec a b) as [Hlt|Hle]; [left; apply Qlt_le_weak, Hlt | right; exact Hle].
Qed.

(** [astype(np.float32)] on a value that already is a [float32]. *)
#[global] Instance qfloat_ops : FloatOps qfloat := {|
  fzero := QFin 0;
  fle := qfle;
  astype_float32 := fun x => x;
  fle_self := qfle_self;
  fle_trans := qfle_trans;
  fle_total := qfle_total
|}.

(** ** Fixed-length normalisation *)

Section FixLength.
Context {F : Type} {FO : FloatOps F}.
Import np app.

Implicit Types (mfcc : ndarray2 (F:=F)) (row : list F).

Lemma shape1_rows r T mfcc :
  has_shape2 r T mfcc -> mfcc = [] \/ shape1 mfcc = T.
Proof.
  intros [_ Hrows]. destruct mfcc as [|row rows]; [by left | right].
  by inversion Hrows.
Qed.

Lemma pad_right_lookup mfcc after i :
  pad_right mfcc after !! i = (fun row => row ++ replicate after fzero) <$> mfcc !! i.
Proof. unfold pad_right. apply list_lookup_fmap. Qed.

Lemma slice_cols_lookup mfcc stop i :
  slice_cols mfcc stop !! i = take stop <$> mfcc !! i.
Proof. unfold slice_cols. apply list_lookup_fmap. Qed.

Lemma fix_length_rows mfcc max_pad_len :
  length (fix_length mfcc max_pad_len) = length mfcc.
Proof.
  unfold fix_length, pad_right, slice_cols.
  destruct (_ <? _); apply length_map.
Qed.

(** Short input: every row gets [max_pad_len - T] zeros on the right. *)
Lemma fix_length_short r T mfcc max_pad_len :
  has_shape2 r T mfcc -> T < max_pad_len ->
  fix_length mfcc max_pad_len = pad_right mfcc (max_pad_len - T).
Proof.
  intros Hs HT. destruct (shape1_rows _ _ _ Hs) as [-> | Hc].
  - unfold fix_length. by destruct (_ <? _).
  - unfold fix_length. rewrite Hc.
    by destruct (Nat.ltb_spec T max_pad_len); [|lia].
Qed.

(** Long (or exact) input: every row is cut to its first [max_pad_len]
    entries. *)
Lemma fix_length_long r T mfcc max_pad_len :
  has_shape2 r T mfcc -> max_pad_len <= T ->
  fix_length mfcc max_pad_len = slice_cols mfcc max_pad_len.
Proof.
  intros Hs HT. destruct (shape1_rows _ _ _ Hs) as [-> | Hc].
  - unfold fix_length. by destruct (_ <? _).
  - unfold fix_length. rewrite Hc.
    by destruct (Nat.ltb_spec T max_pad_len); [lia|].
Qed.

Lemma fix_length_shape r T mfcc max_pad_len :
  has_shape2 r T mfcc -> has_shape2 r max_pad_len (fix_length mfcc max_pad_len).
Proof.
  intros Hs. pose proof Hs as [Hr Hrows]. split.
  - by rewrite fix_length_rows.
  - destruct (Nat.lt_ge_cases T max_pad_len) as [Hlt|Hge].
    + rewrite (fix_length_short r T) by done.
      unfold pad_right. apply Forall_fmap.
      eapply Forall_impl; [exact Hrows|]. simpl. intros row Hrow.
      rewrite length_app, length_replicate. lia.
    + rewrite (fix_length_long r T) by done.
      unfold slice_cols. apply Forall_fmap.
      eapply Forall_impl; [exact Hrows|]. simpl. intros row Hrow.
      rewrite length_take. lia.
Qed.
End FixLength.

(** ** Feature extraction *)

Section Extract.
Context {F : Type} {FO : FloatOps F} {IState : Type}.
Import np app.
Variable env : Env (F:=F) (IState:=IState).

Implicit Types (w : world (F:=F) (IState:=IState)).

Lemma extract_decoded w file_path sr n_mfcc max_pad_len mfcc :
  decodes_to env w file_path sr n_mfcc mfcc ->
  extract_features_from_path env file_path sr n_mfcc max_pad_len w
  = (inr (Some (fix_length mfcc max_pad_len)), w).
Proof.
  intros (content & audio & sample_rate & Hfile & Hdec & Hmfcc).
  unfold extract_features_from_path, try_except, mbind, M_bind, librosa_load, lift.
  rewrite Hfile, Hdec, Hmfcc. reflexivity.
Qed.

Lemma extract_failed w file_path sr n_mfcc max_pad_len e :
  decode_fails env w file_path sr n_mfcc e ->
  extract_features_from_path env file_path sr n_mfcc max_pad_len w
  = (inr None,
     mkWorld (fs w) (arena w)
       (trace w ++ [st_error ("Error saat memproses file audio: " +:+ exn_str e)])).
Proof.
  unfold extract_features_from_path, try_except, mbind, M_bind, librosa_load, lift.
  intros [[Hfile ->] | (content & Hfile & [Hdec | (audio & sample_rate & Hdec & Hmfcc)])];
    rewrite Hfile; [| rewrite Hdec | rewrite Hdec, Hmfcc]; reflexivity.
Qed.

(** Whatever the libraries do, extraction returns normally and leaves
    the files and the interpreter alone. *)
Lemma extract_returns w file_path sr n_mfcc max_pad_len :
  exists r w',
    extract_features_from_path env file_path sr n_mfcc max_pad_len w = (inr r, w') /\
    fs w' = fs w /\ arena w' = arena w /\
    exists evs, trace w' = trace w ++ evs /\
                forall ev, ev ∈ evs -> exists body, ev = st_error body.
Proof.
  unfold extract_features_from_path, try_except, mbind, M_bind, librosa_load, lift.
  destruct (fs w !! file_path) as [content|]; simpl.
  - destruct (librosa_decode env content sr 3) as [e|[audio sample_rate]]; simpl.
    + do 2 eexists. repeat split; try reflexivity.
      eexists. split; [reflexivity|]. intros ev ->%list_elem_of_singleton. eauto.
    + destruct (librosa_feature_mfcc env audio sample_rate n_mfcc) as [e|mfcc]; simpl.
      * do 2 eexists. repeat split; try reflexivity.
        eexists. split; [reflexivity|]. intros ev ->%list_elem_of_singleton. eauto.
      * do 2 eexists. repeat split; try reflexivity.
        exists []. split; [by rewrite app_nil_r|]. intros ev Hev. by apply elem_of_nil in Hev.
  - do 2 eexists. repeat split; try reflexivity.
    eexists. split; [reflexivity|]. intros ev ->%list_elem_of_singleton. eauto.
Qed.
End Extract.

(** ** Claims about feature extraction *)

Section ExtractClaims.
Context {F : Type} {FO : FloatOps F} {IState : Type}.
Import np app.
Variable env : Env (F:=F) (IState:=IState).

Implicit Types (w : world (F:=F) (IState:=IState)) (mfcc : ndarray2 (F:=F)).

(** C1. Whenever the audio source decodes, [extract_features_from_path]
    with its default arguments returns a feature matrix of shape exactly
    [(40, 862)], whatever the number [T] of MFCC frames was before the
    normalisation. *)
Theorem extract_shape_40_862 w file_path mfcc T :
  decodes_to env w file_path default_sr default_n_mfcc mfcc ->
  has_shape2 default_n_mfcc T mfcc ->
  exists features,
    extract_features_from_path env file_path
      default_sr default_n_mfcc default_max_pad_len w = (inr (Some features), w) /\
    has_shape2 40 862 features.
Proof.
  intros Hdec Hshape. eexists. split.
  - by apply extract_decoded.
  - apply (fix_length_shape default_n_mfcc T mfcc default_max_pad_len Hshape).
Qed.

(** C3. When the audio source cannot be decoded, extraction ends in its
    failure outcome: no feature matrix is returned (the result is
    [None]), the error is reported, and the call itself does not raise. *)
Theorem extract_decode_failure w file_path sr n_mfcc max_pad_len e :
  decode_fails env w file_path sr n_mfcc e ->
  exists w',
    extract_features_from_path env file_path sr n_mfcc max_pad_len w = (inr None, w') /\
    fs w' = fs w /\ arena w' = arena w /\
    trace w' = trace w ++ [st_error ("Error saat memproses file audio: " +:+ exn_str e)].
Proof.
  intros Hfail. eexists. split; [by apply extract_failed|]. done.
Qed.

(** C5. When the MFCC matrix has [T < max_pad_len] columns, the result
    keeps every row's [T] entries in place and fills the columns
    [T .. max_pad_len - 1] with zero, so that each row has exactly
    [max_pad_len] entries. *)
Theorem extract_pads_short w file_path sr n_mfcc max_pad_len mfcc r T :
  decodes_to env w file_path sr n_mfcc mfcc ->
  has_shape2 r T mfcc ->
  T < max_pad_len ->
  exists features,
    extract_features_from_path env file_path sr n_mfcc max_pad_len w
    = (inr (Some features), w) /\
    length features = length mfcc /\
    forall i row, mfcc !! i = Some row ->
      exists out, features !! i = Some out /\
        length out = max_pad_len /\
        (forall j, j < T -> out !! j = row !! j) /\
        (forall j, T <= j < max_pad_len -> out !! j = Some fzero).
Proof.
  intros Hdec Hshape HT. eexists. split; [by apply extract_decoded|].
  split; [apply fix_length_rows|].
  intros i row Hrow. rewrite (fix_length_short r T) by done.
  rewrite pad_right_lookup, Hrow. simpl. eexists. split; [reflexivity|].
  destruct Hshape as [_ Hrows].
  assert (length row = T) as Hlen.
  { eapply (Forall_lookup_1 _ _ _ _ Hrows Hrow). }
  rewrite length_app, length_replicate. split; [lia|]. split.
  - intros j Hj. apply lookup_app_l. lia.
  - intros j Hj. rewrite lookup_app_r by lia.
    apply lookup_replicate_2. lia.
Qed.

(** C6. When the MFCC matrix has [T > max_pad_len] columns, the result
    is its prefix: each row has exactly [max_pad_len] entries and entry
    [j] of the result is entry [j] of the MFCC row. *)
Theorem extract_truncates_long w file_path sr n_mfcc max_pad_len mfcc r T :
  decodes_to env w file_path sr n_mfcc mfcc ->
  has_shape2 r T mfcc ->
  max_pad_len < T ->
  exists features,
    extract_features_from_path env file_path sr n_mfcc max_pad_len w
    = (inr (Some features), w) /\
    length features = length mfcc /\
    forall i row, mfcc !! i = Some row ->
      exists out, features !! i = Some out /\
        length out = max_pad_len /\
        out = take max_pad_len row /\
        (forall j, j < max_pad_len -> out !! j = row !! j).
Proof.
  intros Hdec Hshape HT. eexists. split; [by apply extract_decoded|].
  split; [apply fix_length_rows|].
  intros i row Hrow. rewrite (fix_length_long r T) by (done || lia).
  rewrite slice_cols_lookup, Hrow. simpl. eexists. split; [reflexivity|].
  destruct Hshape as [_ Hrows].
  assert (length row = T) as Hlen.
  { eapply (Forall_lookup_1 _ _ _ _ Hrows Hrow). }
  rewrite length_take. split; [lia|]. split; [done|].
  intros j Hj. by apply lookup_take_lt.
Qed.
End ExtractClaims.

(** *** The extraction claims on the concrete host *)

Lemma extract_shape_40_862_witness :
  np.has_shape2 app.default_n_mfcc 3 (replicate 40 (map demo.sample_of_byte demo.clip)) /\
  exists features,
    app.extract_features_from_path demo.env "clip.wav"
      app.default_sr app.default_n_mfcc app.default_max_pad_len demo.ready
    = (inr (Some features), demo.ready) /\
    np.has_shape2 40 862 features.
Proof.
  assert (np.has_shape2 app.default_n_mfcc 3
            (replicate 40 (map demo.sample_of_byte demo.clip))) as Hshape.
  { split; [reflexivity | repeat constructor]. }
  split; [exact Hshape|].
  apply (extract_shape_40_862 demo.env demo.ready "clip.wav"
           (replicate 40 (map demo.sample_of_byte demo.clip)) 3); [|exact Hshape].
  exists demo.clip, (map demo.sample_of_byte demo.clip), app.default_sr.
  repeat split; vm_compute; reflexivity.
Defined.

Lemma extract_decode_failure_witness :
  exists w',
    app.extract_features_from_path demo.env "empty.wav" app.default_sr 40 862 demo.bare
    = (inr None, w') /\
    app.fs w' = app.fs demo.bare /\ app.arena w' = app.arena demo.bare /\
    app.trace w' = [app.st_error "Error saat memproses file audio: file is empty"].
Proof.
  apply (extract_decode_failure demo.env demo.bare "empty.wav" app.default_sr 40 862
           (Exception "file is empty")).
  right. exists []. split; [vm_compute; reflexivity | left; reflexivity].
Defined.

Lemma extract_pads_short_witness :
  exists features,
    app.extract_features_from_path demo.env "clip.wav" app.default_sr 2 5 demo.ready
    = (inr (Some features), demo.ready) /\
    length features = 2 /\
    forall i row, replicate 2 (map demo.sample_of_byte demo.clip) !! i = Some row ->
      exists out, features !! i = Some out /\
        length out = 5 /\
        (forall j, j < 3 -> out !! j = row !! j) /\
        (forall j, 3 <= j < 5 -> out !! j = Some (QFin 0)).
Proof.
  refine (extract_pads_short demo.env demo.ready "clip.wav" app.default_sr 2 5
            (replicate 2 (map demo.sample_of_byte demo.clip)) 2 3 _ _ _).
  - exists demo.clip, (map demo.sample_of_byte demo.clip), app.default_sr.
    repeat split; vm_compute; reflexivity.
  - split; [reflexivity | repeat constructor].
  - lia.
Defined.

Lemma extract_truncates_long_witness :
  exists features,
    app.extract_features_from_path demo.env "clip.wav" app.default_sr 2 2 demo.ready
    = (inr (Some features), demo.ready) /\
    length features = 2 /\
    forall i row, replicate 2 (map demo.sample_of_byte demo.clip) !! i = Some row ->
      exists out, features !! i = Some out /\
        length out = 2 /\
        out = take 2 row /\
        (forall j, j < 2 -> out !! j = row !! j).
Proof.
  refine (extract_truncates_long demo.env demo.ready "clip.wav" app.default_sr 2 2
            (replicate 2 (map demo.sample_of_byte demo.clip)) 2 3 _ _ _).
  - exists demo.clip, (map demo.sample_of_byte demo.clip), app.default_sr.
    repeat split; vm_compute; reflexivity.
  - split; [reflexivity | repeat constructor].
  - lia.
Defined.

(** ** argmax *)

Section Argmax.
Context {F : Type} {FO : FloatOps F}.
Import np.

Implicit Types (v ip : list F) (mp x y z : F).

Lemma fle_refl_l x y : fle x y = true -> fle x x = true.
Proof. intros Hxy. by destruct (fle_self x y Hxy). Qed.

Lemma fle_refl_r x y : fle x y = true -> fle y y = true.
Proof. intros Hxy. by destruct (fle_self x y Hxy). Qed.

Lemma flt_fle x y : flt x y = true -> fle x y = true /\ fle y x = false.
Proof.
  unfold flt. intros [Hle Hnle]%andb_true_iff.
  split; [done|]. by apply negb_true_iff.
Qed.

Lemma feq_fle x y : feq x y = true -> fle x y = true /\ fle y x = true.
Proof. unfold feq. by intros ?%andb_true_iff. Qed.

(** The index returned by the scan is one the scan has seen. *)
Lemma argmax_scan_bound ip mp max_ind i :
  max_ind < i -> argmax_scan mp max_ind i ip < i + length ip.
Proof.
  revert mp max_ind i. induction ip as [|x ip IH]; intros mp max_ind i Hlt; simpl.
  - lia.
  - destruct (negb (fle x mp)).
    + destruct (isnan x); [lia|].
      specialize (IH x i (S i)). lia.
    + specialize (IH mp max_ind (S i)). lia.
Qed.

Lemma argmax_bound v : v <> [] -> exists i, argmax v = inr i /\ i < length v.
Proof.
  destruct v as [|x ip]; [done|]. intros _. simpl. eexists. split; [reflexivity|].
  destruct (isnan x); [simpl; lia|].
  pose proof (argmax_scan_bound ip x 0 1). simpl. lia.
Qed.

(** Once the running maximum dominates what is left, the scan keeps its
    index. *)
Lemma argmax_scan_keep ip mp max_ind i :
  (forall z, z ∈ ip -> fle z mp = true) ->
  argmax_scan mp max_ind i ip = max_ind.
Proof.
  revert i. induction ip as [|x ip IH]; intros i Hdom; simpl; [done|].
  rewrite (Hdom x) by apply list_elem_of_here. simpl.
  apply IH. intros z Hz. apply Hdom. by apply list_elem_of_further.
Qed.

(** The scan stops at the first entry that dominates the rest, provided
    everything before it is strictly smaller and the running maximum is
    strictly smaller too. *)
Lemma argmax_scan_first ip n x mp max_ind i :
  ip !! n = Some x ->
  flt mp x = true ->
  (forall k z, ip !! k = Some z -> fle z x = true) ->
  (forall k z, k < n -> ip !! k = Some z -> fle x z = false) ->
  argmax_scan mp max_ind i ip = i + n.
Proof.
  revert n mp max_ind i.
  induction ip as [|y ip IH]; intros n mp max_ind i Hx Hmp Hmax Hbefore; [done|].
  destruct (flt_fle _ _ Hmp) as [Hmpx Hxmp].
  destruct n as [|n]; simpl in *.
  - injection Hx as ->. rewrite Hxmp. simpl.
    unfold isnan. rewrite (fle_refl_r _ _ Hmpx). simpl.
    rewrite argmax_scan_keep; [lia|].
    intros z [k Hk]%list_elem_of_lookup. by apply (Hmax (S k)).
  - assert (fle y x = true) as Hyx by apply (Hmax 0 y eq_refl).
    assert (fle x y = false) as Hxy by (apply (Hbefore 0 y); [lia | done]).
    assert (forall k z, ip !! k = Some z -> fle z x = true) as Hmax'
      by (intros k z Hk; by apply (Hmax (S k))).
    assert (forall k z, k < n -> ip !! k = Some z -> fle x z = false) as Hbefore'
      by (intros k z Hlt Hk; apply (Hbefore (S k)); [lia | done]).
    destruct (fle y mp) eqn:Hymp; simpl.
    + rewrite (IH n mp max_ind (S i)); [lia | done | done | done | done].
    + unfold isnan. rewrite (fle_refl_l _ _ Hyx). simpl.
      rewrite (IH n y i (S i)); [lia | done | | done | done].
      unfold flt. by rewrite Hyx, Hxy.
Qed.

(** [np.argmax] returns the lowest index at which the maximum is
    attained. *)
Lemma argmax_first_max v i x :
  v !! i = Some x ->
  (forall k z, v !! k = Some z -> fle z x = true) ->
  (forall k z, k < i -> v !! k = Some z -> fle x z = false) ->
  argmax v = inr i.
Proof.
  intros Hx Hmax Hbefore. destruct v as [|h ip]; [done|]. simpl. f_equal.
  destruct i as [|n]; simpl in *.
  - injection Hx as ->.
    unfold isnan. rewrite (fle_refl_l x x) by apply (Hmax 0 x eq_refl). simpl.
    apply argmax_scan_keep.
    intros z [k Hk]%list_elem_of_lookup. by apply (Hmax (S k)).
  - assert (fle h x = true) as Hhx by apply (Hmax 0 h eq_refl).
    assert (fle x h = false) as Hxh by (apply (Hbefore 0 h); [lia | done]).
    unfold isnan. rewrite (fle_refl_l _ _ Hhx). simpl.
    apply (argmax_scan_first ip n x h 0 1); [done | | |].
    + unfold flt. by rewrite Hhx, Hxh.
    + intros k z Hk. by apply (Hmax (S k)).
    + intros k z Hlt Hk. apply (Hbefore (S k)); [lia | done].
Qed.
End Argmax.

(** ** The label set and the advisory table *)

Section Labels.
Import py app.

Lemma EMOTION_LABELS_sorted :
  EMOTION_LABELS =
  ["angry"; "calm"; "disgust"; "fearful"; "happy"; "neutral"; "sad"; "surprised"].
Proof. reflexivity. Qed.

Lemma feedback_dict_lookup_known label :
  label ∈ EMOTION_LABELS ->
  feedback_dict !! label = Some (get_feedback label) /\
  get_feedback label <> "" /\
  get_feedback label <> fallback_feedback.
Proof.
  rewrite EMOTION_LABELS_sorted. intros Hin.
  repeat (apply elem_of_cons in Hin as [-> | Hin];
          [split; [vm_compute; reflexivity | split; vm_compute; discriminate]|]).
  by apply elem_of_nil in Hin.
Qed.

Lemma feedback_dict_lookup_unknown label :
  label ∉ EMOTION_LABELS -> feedback_dict !! label = None.
Proof.
  rewrite EMOTION_LABELS_sorted. rewrite !not_elem_of_cons.
  intros (? & ? & ? & ? & ? & ? & ? & ? & _).
  unfold feedback_dict, dict_literal. cbn [fold_left fst snd].
  rewrite !lookup_insert_ne by done. apply lookup_empty.
Qed.

Lemma feedback_values_distinct : NoDup (get_feedback <$> EMOTION_LABELS).
Proof. compute_done. Qed.

Lemma label_at_index i :
  i < 8 -> exists label, EMOTION_LABELS !! i = Some label /\ label ∈ EMOTION_LABELS.
Proof.
  intros Hi. do 8 (destruct i as [|i]; [eexists; split; [reflexivity|];
    rewrite EMOTION_LABELS_sorted; set_solver |]). lia.
Qed.
End Labels.

(** C8. [get_feedback] is a function of its argument alone; each of the
    eight labels has its own entry in the table, none of them empty and no
    two of them equal, and every other input yields the fallback text. *)
Theorem get_feedback_total_table :
  (forall label, label ∈ app.EMOTION_LABELS ->
     app.feedback_dict !! label = Some (app.get_feedback label) /\
     app.get_feedback label <> "") /\
  length app.EMOTION_LABELS = 8 /\
  NoDup (app.get_feedback <$> app.EMOTION_LABELS) /\
  (forall label, label ∉ app.EMOTION_LABELS ->
     app.get_feedback label = app.fallback_feedback).
Proof.
  split; [|split; [reflexivity | split; [exact feedback_values_distinct|]]].
  - intros label Hin.
    destruct (feedback_dict_lookup_known label Hin) as (Hlook & Hne & _). done.
  - intros label Hout. unfold app.get_feedback, py.dict_get.
    by rewrite (feedback_dict_lookup_unknown label Hout).
Qed.

(** ** Dominant-label derivation *)

Section Dominant.
Context {F : Type} {FO : FloatOps F} {IState : Type}.
Import np py app.
Variable env : Env (F:=F) (IState:=IState).

Implicit Types (w : world (F:=F) (IState:=IState)) (prediction v : list F).

(** The two result columns, when the dominant label exists and the
    vector has one entry per label. *)
Lemma show_results_run w prediction idx_max emosi_dominan confidence :
  dominant_label prediction = inr (idx_max, emosi_dominan) ->
  prediction !! idx_max = Some confidence ->
  length prediction = length EMOTION_LABELS ->
  show_results env prediction w =
  (inr tt,
   mkWorld (fs w) (arena w)
     (trace w ++
      [st_subheader "🧠 Emosi Dominan";
       st_metric "Emosi Terkuat Terdeteksi" (capitalize emosi_dominan)
                 (format_percent env confidence +:+ "% Keyakinan");
       st_markdown "### 💡 Saran untuk Anda";
       st_success (get_feedback emosi_dominan);
       st_subheader "📈 Distribusi Emosi";
       st_bar_chart (zip (map capitalize EMOTION_LABELS) prediction)])).
Proof.
  intros Hdom Hconf Hlen.
  unfold show_results, mbind, M_bind, emit, lift, index, DataFrame.
  rewrite Hdom. cbn beta iota. rewrite Hconf.
  cbn beta iota delta [mret M_ret fs arena trace].
  rewrite length_map, Hlen, Nat.eqb_refl.
  cbn beta iota delta [mret M_ret fs arena trace].
  by rewrite <- !app_assoc.
Qed.

(** Whatever the vector, a dominant label that is found is a key of the
    advisory table. *)
Lemma dominant_label_in_table v idx_max label :
  dominant_label v = inr (idx_max, label) ->
  label ∈ EMOTION_LABELS /\ get_feedback label <> fallback_feedback.
Proof.
  unfold dominant_label. destruct (argmax v) as [e|i]; [discriminate|].
  destruct (EMOTION_LABELS !! i) as [l|] eqn:Hl; [|discriminate].
  intros [= <- <-].
  assert (l ∈ EMOTION_LABELS) as Hin by (eapply list_elem_of_lookup_2; exact Hl).
  split; [exact Hin|]. by destruct (feedback_dict_lookup_known l Hin) as (_ & _ & ?).
Qed.

(** C2. When the maximum of the vector is attained at exactly the two
    indices [i < j], [np.argmax] returns [i], and the dominant label is
    the label at [i]. *)
Theorem dominant_tie_lowest_index v i j x y :
  i < j ->
  v !! i = Some x ->
  v !! j = Some y ->
  feq x y = true ->
  (forall k z, v !! k = Some z -> k <> i -> k <> j -> flt z x = true) ->
  argmax v = inr i /\
  forall label, EMOTION_LABELS !! i = Some label -> dominant_label v = inr (i, label).
Proof.
  intros Hij Hi Hj Heq Hothers.
  destruct (feq_fle _ _ Heq) as [Hxy Hyx].
  assert (argmax v = inr i) as Hargmax.
  { apply (argmax_first_max v i x Hi).
    - intros k z Hk.
      destruct (decide (k = i)) as [-> | Hki].
      { rewrite Hi in Hk. injection Hk as <-. by apply (fle_refl_l x y). }
      destruct (decide (k = j)) as [-> | Hkj].
      { rewrite Hj in Hk. by injection Hk as <-. }
      by destruct (flt_fle _ _ (Hothers k z Hk Hki Hkj)).
    - intros k z Hlt Hk.
      assert (k <> i) as Hki by lia. assert (k <> j) as Hkj by lia.
      by destruct (flt_fle _ _ (Hothers k z Hk Hki Hkj)). }
  split; [done|]. intros label Hlabel.
  unfold dominant_label. by rewrite Hargmax, Hlabel.
Qed.

(** C10. For every vector of length 8 the argmax index is a valid index
    into [EMOTION_LABELS], the label found there has an entry in the
    advisory table, so [get_feedback] does not return the fallback; the
    result columns are rendered without raising, with that entry as the
    advice. *)
Theorem pipeline_label_known w prediction :
  length prediction = 8 ->
  exists idx_max label,
    dominant_label prediction = inr (idx_max, label) /\
    idx_max < length EMOTION_LABELS /\
    label ∈ EMOTION_LABELS /\
    feedback_dict !! label = Some (get_feedback label) /\
    get_feedback label <> fallback_feedback /\
    exists w', show_results env prediction w = (inr tt, w') /\
               st_success (get_feedback label) ∈ trace w'.
Proof.
  intros Hlen.
  destruct (argmax_bound prediction) as (idx & Hargmax & Hidx).
  { intros ->. discriminate Hlen. }
  rewrite Hlen in Hidx.
  destruct (label_at_index idx Hidx) as (label & Hlabel & Hin).
  destruct (feedback_dict_lookup_known label Hin) as (Hlook & _ & Hfb).
  assert (dominant_label prediction = inr (idx, label)) as Hdom.
  { unfold dominant_label. by rewrite Hargmax, Hlabel. }
  destruct (lookup_lt_is_Some_2 prediction idx) as [confidence Hconf]; [lia|].
  exists idx, label.
  split; [exact Hdom|]. split; [exact Hidx|]. split; [exact Hin|].
  split; [exact Hlook|]. split; [exact Hfb|].
  eexists. split.
  - by apply (show_results_run w prediction idx label confidence).
  - cbn [trace]. apply elem_of_app. right.
    do 3 apply list_elem_of_further. apply list_elem_of_here.
Qed.
End Dominant.

Lemma dominant_tie_lowest_index_witness :
  np.argmax demo.probabilities = inr 1 /\
  forall label, app.EMOTION_LABELS !! 1 = Some label ->
                app.dominant_label demo.probabilities = inr (1, label).
Proof.
  refine (dominant_tie_lowest_index demo.probabilities 1 4
            (QFin (3#10)) (QFin (3#10)) _ _ _ _ _).
  - lia.
  - reflexivity.
  - reflexivity.
  - reflexivity.
  - intros k z Hk Hk1 Hk4.
    do 8 (destruct k as [|k]; [first [done | injection Hk as <-; reflexivity] |]).
    discriminate Hk.
Defined.

Lemma pipeline_label_known_witness :
  exists idx_max label,
    app.dominant_label demo.probabilities = inr (idx_max, label) /\
    idx_max < length app.EMOTION_LABELS /\
    label ∈ app.EMOTION_LABELS /\
    app.feedback_dict !! label = Some (app.get_feedback label) /\
    app.get_feedback label <> app.fallback_feedback /\
    exists w', app.show_results demo.env demo.probabilities demo.ready = (inr tt, w') /\
               app.st_success (app.get_feedback label) ∈ app.trace w'.
Proof.
  apply (pipeline_label_known demo.env demo.ready demo.probabilities).
  reflexivity.
Defined.

(** ** Runs that leave the files alone *)

Section Quiet.
Context {F : Type} {FO : FloatOps F} {IState : Type}.
Import np py app.

Implicit Types (w : world (F:=F) (IState:=IState)).











End Quiet.

(** ** The page script *)

Section Script.
Context {F : Type} {FO : FloatOps F} {IState : Type}.
Import np py app.
Variable env : Env (F:=F) (IState:=IState).

Implicit Types (w wf : world (F:=F) (IState:=IState)).

Lemma load_failed w e :
  model_load_fails env w e ->
  exists a,
    load_tflite_model env w =
    (inr None,
     mkWorld (fs w) a
       (trace w ++
        [st_error ("Error saat memuat model TFLite di '" +:+ TFLITE_MODEL_PATH
                   +:+ "': " +:+ exn_str e);
         st_info "Pastikan Anda sudah menjalankan skrip 'convert_to_tflite.py' terlebih dahulu."])).
Proof.
  unfold load_tflite_model, try_except, mbind, M_bind, tf_lite_Interpreter, on_arena, emit.
  intros [[Hfile ->] | (content & Hfile & [Hparse | (it & Hparse & Halloc)])];
    rewrite Hfile; [| rewrite Hparse | rewrite Hparse; cbn [fs arena trace]; rewrite Halloc];
    cbn [fs arena trace]; eexists; by rewrite <- app_assoc.
Qed.

Lemma lookup_map {A B} (f : A -> B) (l : list A) i :
  map f l !! i = f <$> l !! i.
Proof. apply list_lookup_fmap. Qed.

(** The reshape of line 107 on a well-formed matrix. *)
Lemma make_input_shape (features : ndarray2 (F:=F)) n T :
  has_shape2 n T features -> has_shape4 1 n T 1 (make_input features).
Proof.
  intros [Hn Hrows]. unfold make_input, astype32, expand_batch_channel.
  cbn [map]. split; [done|]. apply Forall_singleton. split.
  - by rewrite !length_map.
  - do 2 apply List.Forall_map.
    eapply Forall_impl; [exact Hrows|]. cbn beta. intros row Hrow. split.
    + by rewrite !length_map.
    + do 2 apply List.Forall_map. by apply Forall_true.
Qed.

Lemma make_input_entry (features : ndarray2 (F:=F)) i j row x :
  features !! i = Some row -> row !! j = Some x ->
  exists plane line,
    make_input features !! 0 = Some plane /\ plane !! i = Some line /\
    line !! j = Some [astype_float32 x].
Proof.
  intros Hrow Hx. unfold make_input, astype32, expand_batch_channel, ndarray2 in *.
  cbn [map]. eexists _, _. split; [reflexivity|]. split.
  - by rewrite !lookup_map, Hrow.
  - by rewrite !lookup_map, Hx.
Qed.

(** The call sequence of [run_tflite_inference] when every interpreter
    method succeeds. *)
Lemma run_tflite_inference_run w interpreter input_data a a1 a2
    input_index output_index output_data prediction :
  arena w = Some a ->
  get_input_details interpreter !! 0 = Some input_index ->
  set_tensor interpreter input_index input_data a = inr a1 ->
  invoke interpreter a1 = inr a2 ->
  get_output_details interpreter !! 0 = Some output_index ->
  get_tensor interpreter output_index a2 = inr output_data ->
  output_data !! 0 = Some prediction ->
  run_tflite_inference interpreter input_data w =
  (inr prediction, mkWorld (fs w) (Some a2) (trace w ++ [interpreter_invoked])).
Proof.
  intros Harena Hin Hset Hinvoke Hout Hget Hrow.
  unfold run_tflite_inference, mbind, M_bind, index, on_arena, of_arena, emit.
  rewrite Hin. cbn beta iota delta [mret M_ret]. rewrite Harena, Hset.
  cbn beta iota delta [fs arena trace]. rewrite Hinvoke, Hout.
  cbn beta iota delta [mret M_ret fs arena trace]. rewrite Hget.
  unfold ndarray2 in *. cbn beta iota. rewrite Hrow.
  reflexivity.
Qed.


(** C4. When the model artifact is missing or malformed,
    [load_tflite_model] ends in its failure outcome ([None]) after
    reporting the error; the script then shows its not-ready warning and
    stops: whatever the upload widget returns is ignored, no scratch file
    is written and the interpreter is never invoked.  The run itself does
    not raise. *)
Theorem model_load_failure_blocks_inference w e audio_file :
  model_load_fails env w e ->
  (exists w1, load_tflite_model env w = (inr None, w1)) /\
  exists w' evs,
    main env audio_file w = (inr tt, w') /\
    fs w' = fs w /\
    trace w' = trace w ++ evs /\
    evs = [st_set_page_config;
           st_error ("Error saat memuat model TFLite di '" +:+ TFLITE_MODEL_PATH
                     +:+ "': " +:+ exn_str e);
           st_info "Pastikan Anda sudah menjalankan skrip 'convert_to_tflite.py' terlebih dahulu.";
           st_title "⚡ AI Public Speaking Coach";
           st_markdown "Aplikasi ini sudah dioptimalkan untuk analisis yang lebih cepat menggunakan TensorFlow Lite.";
           st_sidebar_header "Upload Audio Anda";
           st_sidebar_file_uploader;
           st_sidebar_markdown "---";
           st_sidebar_markdown "Crafted with by **Raihan & Reynanda**";
           st_warning "Aplikasi belum siap. Model TFLite tidak dapat dimuat."] /\
    (interpreter_invoked ∉ evs) /\
    (forall path, tempfile_created path ∉ evs).
Proof.
  intros Hfail. split.
  { destruct (load_failed w e Hfail) as [a Hload]. eauto. }
  unfold main, mbind, M_bind. unfold emit at 1. cbn beta iota.
  match goal with
  | |- context [load_tflite_model env ?w0] =>
      destruct (load_failed w0 e Hfail) as [a Hload]; rewrite Hload
  end.
  unfold emit. cbn beta iota delta [fs arena trace].
  eexists _, _. split; [reflexivity|]. split; [reflexivity|].
  split; [|split; [reflexivity|split]].
  - by rewrite <- !app_assoc.
  - rewrite !not_elem_of_cons. repeat split; try discriminate. apply not_elem_of_nil.
  - intros path. rewrite !not_elem_of_cons. repeat split; try discriminate.
    apply not_elem_of_nil.
Qed.

(** C7. The feature matrix of shape [(n, T)] is fed to the model as a
    tensor of shape [(1, n, T, 1)] holding the same entries, and
    [run_tflite_inference] returns row 0 of the model's output tensor as
    it is: when that tensor has shape [(1, 8)] the result has 8 entries,
    one per entry of [EMOTION_LABELS], which is the sorted label list. *)
Theorem classify_reshape_and_output w interpreter features n T a a1 a2
    input_index output_index output_data :
  has_shape2 n T features ->
  arena w = Some a ->
  get_input_details interpreter !! 0 = Some input_index ->
  set_tensor interpreter input_index (make_input features) a = inr a1 ->
  invoke interpreter a1 = inr a2 ->
  get_output_details interpreter !! 0 = Some output_index ->
  get_tensor interpreter output_index a2 = inr output_data ->
  has_shape2 1 8 output_data ->
  has_shape4 1 n T 1 (make_input features) /\
  (forall i j row x, features !! i = Some row -> row !! j = Some x ->
     exists plane line,
       make_input features !! 0 = Some plane /\ plane !! i = Some line /\
       line !! j = Some [astype_float32 x]) /\
  exists prediction,
    run_tflite_inference interpreter (make_input features) w =
    (inr prediction, mkWorld (fs w) (Some a2) (trace w ++ [interpreter_invoked])) /\
    output_data = [prediction] /\
    length prediction = 8 /\
    length prediction = length EMOTION_LABELS /\
    EMOTION_LABELS =
    ["angry"; "calm"; "disgust"; "fearful"; "happy"; "neutral"; "sad"; "surprised"].
Proof.
  intros Hshape Harena Hin Hset Hinvoke Hout Hget [Hbatch Hrow].
  split; [by apply make_input_shape|].
  split; [intros i j row x; apply make_input_entry|].
  destruct output_data as [|prediction [|? ?]]; try discriminate Hbatch.
  pose proof (proj1 (Forall_singleton _ _) Hrow) as Hlen. exists prediction.
  split.
  { by apply (run_tflite_inference_run w interpreter _ a a1 a2 input_index output_index
                [prediction]). }
  split; [reflexivity|]. split; [exact Hlen|]. split; [by rewrite Hlen | reflexivity].
Qed.
End Script.

(** *** The script claims on the concrete host *)

Lemma model_load_failure_blocks_inference_witness :
  app.model_load_fails demo.env demo.bare
    (Exception "Could not open 'models/model.tflite'.") /\
  exists w' evs,
    app.main demo.env (Some demo.clip) demo.bare = (inr tt, w') /\
    app.trace w' = evs /\
    (app.interpreter_invoked ∉ evs) /\
    (forall path, app.tempfile_created path ∉ evs).
Proof.
  assert (app.model_load_fails demo.env demo.bare
            (Exception "Could not open 'models/model.tflite'.")) as Hfail.
  { left. split; reflexivity. }
  split; [exact Hfail|].
  destruct (model_load_failure_blocks_inference demo.env demo.bare _
              (Some demo.clip) Hfail)
    as (_ & w' & evs & Hmain & _ & Htrace & _ & Hinvoke & Htemp).
  exists w', evs. split; [exact Hmain|]. split; [exact Htrace|].
  split; [exact Hinvoke | exact Htemp].
Defined.

Lemma classify_reshape_and_output_witness :
  let features := replicate 2 (map demo.sample_of_byte demo.clip) in
  np.has_shape4 1 2 3 1 (app.make_input features) /\
  exists prediction,
    app.run_tflite_inference demo.interpreter (app.make_input features) demo.ready =
    (inr prediction,
     app.mkWorld (app.fs demo.ready) (Some (Some (app.make_input features)))
                 [app.interpreter_invoked]) /\
    length prediction = 8.
Proof.
  intros features.
  destruct (classify_reshape_and_output demo.ready demo.interpreter features 2 3
              None (Some (app.make_input features)) (Some (app.make_input features))
              0 1 [demo.probabilities])
    as (Hshape & _ & prediction & Hrun & _ & Hlen & _).
  - split; [reflexivity | repeat constructor].
  - reflexivity.
  - reflexivity.
  - reflexivity.
  - reflexivity.
  - reflexivity.
  - reflexivity.
  - split; [reflexivity | repeat constructor].
  - split; [exact Hshape|]. exists prediction. split; [exact Hrun | exact Hlen].
Defined.



(** A zero-byte upload on a host with a working model: decoding fails,
    the error is shown, and the scratch file is removed all the same. *)
Example scratch_file_removed_after_decode_failure :
  let w' := (app.main demo.env (Some []) demo.ready).2 in
  app.fs w' !! "/tmp/tmpclip.wav" = None /\
  app.fs w' = app.fs demo.ready /\
  app.trace w' =
    [app.st_set_page_config;
     app.st_title "⚡ AI Public Speaking Coach";
     app.st_markdown "Aplikasi ini sudah dioptimalkan untuk analisis yang lebih cepat menggunakan TensorFlow Lite.";
     app.st_sidebar_header "Upload Audio Anda";
     app.st_sidebar_file_uploader;
     app.st_sidebar_markdown "---";
     app.st_sidebar_markdown "Crafted with by **Raihan & Reynanda**";
     app.st_header "Hasil Analisis";
     app.st_audio [];
     app.tempfile_created "/tmp/tmpclip.wav";
     app.st_error "Error saat memproses file audio: file is empty";
     app.os_removed "/tmp/tmpclip.wav"].
Proof. vm_compute. repeat split; reflexivity. Qed.

(** A three-byte upload on the same host: the tie between indices 1 and
    4 of the model's answer is resolved in favour of [calm]. *)
Example full_run_picks_first_of_tie :
  app.st_metric "Emosi Terkuat Terdeteksi" "Calm" "30.00% Keyakinan"
    ∈ app.trace (app.main demo.env (Some demo.clip) demo.ready).2.
Proof. vm_compute. do 13 apply list_elem_of_further. apply list_elem_of_here. Qed.

(** * Further properties of the script *)

(** ** Extraction beyond the two claims on padding and truncation *)

Section ExtractMore.
Context {F : Type} {FO : FloatOps F} {IState : Type}.
Import np app.
Variable env : Env (F:=F) (IState:=IState).

Implicit Types (w : world (F:=F) (IState:=IState)) (mfcc : ndarray2 (F:=F)).

Lemma slice_cols_exact mfcc r c :
  has_shape2 r c mfcc -> slice_cols mfcc c = mfcc.
Proof.
  intros [_ Hrows]. unfold slice_cols.
  induction Hrows as [|row rows Hrow _ IH]; [done|].
  cbn [map]. rewrite IH. f_equal. apply take_ge. lia.
Qed.

(** X1. A clip whose MFCC matrix already has [max_pad_len] columns takes
    the truncation branch and comes back entry for entry. *)
Theorem extract_exact_length_unchanged w file_path sr n_mfcc max_pad_len mfcc r :
  decodes_to env w file_path sr n_mfcc mfcc ->
  has_shape2 r max_pad_len mfcc ->
  extract_features_from_path env file_path sr n_mfcc max_pad_len w
  = (inr (Some mfcc), w).
Proof.
  intros Hdec Hshape. rewrite (extract_decoded env w _ _ _ _ mfcc Hdec).
  rewrite (fix_length_long r max_pad_len) by (done || lia).
  by rewrite (slice_cols_exact mfcc r max_pad_len).
Qed.

(** X2. The normalisation is idempotent: applied to its own result, with
    the same length, it changes nothing. *)
Theorem fix_length_idempotent mfcc r T max_pad_len :
  has_shape2 r T mfcc ->
  fix_length (fix_length mfcc max_pad_len) max_pad_len = fix_length mfcc max_pad_len.
Proof.
  intros Hshape.
  pose proof (fix_length_shape r T mfcc max_pad_len Hshape) as Hout.
  rewrite (fix_length_long r max_pad_len (fix_length mfcc max_pad_len)) by (done || lia).
  by apply (slice_cols_exact _ r).
Qed.

(** X3. Extraction has two outcomes and no other: a matrix with the world
    untouched, or [None] with exactly one [st.error] element appended.
    It never raises, never writes or removes a file and never touches the
    interpreter. *)
Theorem extract_two_outcomes w file_path sr n_mfcc max_pad_len :
  (exists mfcc,
     extract_features_from_path env file_path sr n_mfcc max_pad_len w
     = (inr (Some (fix_length mfcc max_pad_len)), w)) \/
  (exists e,
     extract_features_from_path env file_path sr n_mfcc max_pad_len w
     = (inr None,
        mkWorld (fs w) (arena w)
          (trace w ++ [st_error ("Error saat memproses file audio: " +:+ exn_str e)]))).
Proof.
  destruct (fs w !! file_path) as [content|] eqn:Hfile.
  - destruct (librosa_decode env content sr 3) as [e|[audio sample_rate]] eqn:Hdec.
    + right. exists e. apply extract_failed. right. exists content. eauto.
    + destruct (librosa_feature_mfcc env audio sample_rate n_mfcc) as [e|mfcc] eqn:Hmfcc.
      * right. exists e. apply extract_failed. right. exists content.
        split; [done|]. right. eauto.
      * left. exists mfcc. apply extract_decoded. exists content, audio, sample_rate. done.
  - right. eexists. apply extract_failed. left. done.
Qed.
End ExtractMore.

Lemma extract_exact_length_unchanged_witness :
  app.extract_features_from_path demo.env "clip.wav" app.default_sr 2 3 demo.ready
  = (inr (Some (replicate 2 (map demo.sample_of_byte demo.clip))), demo.ready).
Proof.
  refine (extract_exact_length_unchanged demo.env demo.ready "clip.wav" app.default_sr 2 3
            (replicate 2 (map demo.sample_of_byte demo.clip)) 2 _ _).
  - exists demo.clip, (map demo.sample_of_byte demo.clip), app.default_sr.
    repeat split; vm_compute; reflexivity.
  - split; [reflexivity | repeat constructor].
Defined.

Lemma fix_length_idempotent_witness :
  let mfcc := replicate 2 (map demo.sample_of_byte demo.clip) in
  app.fix_length (app.fix_length mfcc 5) 5 = app.fix_length mfcc 5.
Proof.
  intros mfcc. refine (fix_length_idempotent mfcc 2 3 5 _).
  split; [reflexivity | repeat constructor].
Defined.

(** ** Loading the model *)

Section LoadMore.
Context {F : Type} {FO : FloatOps F} {IState : Type}.
Import np app.
Variable env : Env (F:=F) (IState:=IState).

Implicit Types (w : world (F:=F) (IState:=IState)).

Lemma load_ok w interpreter a0 :
  model_loads env w interpreter a0 ->
  load_tflite_model env w = (inr (Some interpreter), mkWorld (fs w) (Some a0) (trace w)).
Proof.
  intros (content & Hfile & Hparse & Halloc).
  unfold load_tflite_model, try_except, mbind, M_bind, tf_lite_Interpreter, on_arena.
  rewrite Hfile, Hparse. cbn [fs arena trace]. rewrite Halloc. reflexivity.
Qed.

(** X4. When the artifact is on disk, parses and its tensors can be
    allocated, [load_tflite_model] returns the interpreter, leaves the
    allocated arena behind and shows nothing on the page. *)
Theorem load_tflite_model_succeeds w interpreter a0 :
  model_loads env w interpreter a0 ->
  load_tflite_model env w = (inr (Some interpreter), mkWorld (fs w) (Some a0) (trace w)).
Proof. apply load_ok. Qed.

Lemma load_cases w :
  (exists interpreter a0, model_loads env w interpreter a0) \/
  (exists e, model_load_fails env w e).
Proof.
  unfold model_loads, model_load_fails.
  destruct (fs w !! TFLITE_MODEL_PATH) as [content|] eqn:Hfile.
  - destruct (tflite_parse env content) as [e|it] eqn:Hparse.
    + right. exists e. right. exists content. eauto.
    + destruct (allocate_tensors it (initial_arena it)) as [e|a0] eqn:Halloc.
      * right. exists e. right. exists content. split; [done|]. right. eauto.
      * left. exists it, a0, content. done.
  - right. eexists. left. done.
Qed.

(** X5. [load_tflite_model] never raises and never touches a file.  It
    either returns an interpreter without showing anything, or returns
    [None] after showing exactly the error and the hint. *)
Theorem load_tflite_model_two_outcomes w :
  (exists interpreter a0,
     load_tflite_model env w =
     (inr (Some interpreter), mkWorld (fs w) (Some a0) (trace w))) \/
  (exists e a,
     load_tflite_model env w =
     (inr None,
      mkWorld (fs w) a
        (trace w ++
         [st_error ("Error saat memuat model TFLite di '" +:+ TFLITE_MODEL_PATH
                    +:+ "': " +:+ exn_str e);
          st_info "Pastikan Anda sudah menjalankan skrip 'convert_to_tflite.py' terlebih dahulu."]))).
Proof.
  destruct (load_cases w) as [(it & a0 & Hok) | (e & Hfail)].
  - left. exists it, a0. by apply load_ok.
  - right. exists e. destruct (load_failed env w e Hfail) as [a Hload]. eauto.
Qed.
End LoadMore.

Lemma load_tflite_model_succeeds_witness :
  app.load_tflite_model demo.env demo.ready =
  (inr (Some demo.interpreter), app.mkWorld (app.fs demo.ready) (Some None) []).
Proof.
  refine (load_tflite_model_succeeds demo.env demo.ready demo.interpreter None _).
  exists [Byte.x1c]. repeat split; vm_compute; reflexivity.
Defined.

(** ** Inference *)

Section InferenceMore.
Context {F : Type} {FO : FloatOps F} {IState : Type}.
Import np app.

Implicit Types (w : world (F:=F) (IState:=IState))
               (interpreter : Interpreter (F:=F) (IState:=IState)).

(** X6. When [set_tensor] rejects the input (a shape or type the model
    does not take), [run_tflite_inference] raises that exception at once:
    the interpreter is not invoked and the world is as before. *)
Theorem inference_rejected_input w interpreter input_data a input_index e :
  arena w = Some a ->
  get_input_details interpreter !! 0 = Some input_index ->
  set_tensor interpreter input_index input_data a = inl e ->
  run_tflite_inference interpreter input_data w = (inl e, w).
Proof.
  intros Harena Hin Hset.
  unfold run_tflite_inference, mbind, M_bind, index, on_arena.
  rewrite Hin. cbn beta iota delta [mret M_ret]. by rewrite Harena, Hset.
Qed.

(** X7. When [invoke] raises, the exception leaves
    [run_tflite_inference]; the arena holds the input that was set and no
    output tensor is read. *)
Theorem inference_invoke_failure w interpreter input_data a a1 input_index e :
  arena w = Some a ->
  get_input_details interpreter !! 0 = Some input_index ->
  set_tensor interpreter input_index input_data a = inr a1 ->
  invoke interpreter a1 = inl e ->
  run_tflite_inference interpreter input_data w =
  (inl e, mkWorld (fs w) (Some a1) (trace w ++ [interpreter_invoked])).
Proof.
  intros Harena Hin Hset Hinvoke.
  unfold run_tflite_inference, mbind, M_bind, index, on_arena, emit.
  rewrite Hin. cbn beta iota delta [mret M_ret]. rewrite Harena, Hset.
  cbn beta iota delta [fs arena trace]. by rewrite Hinvoke.
Qed.

(** X8. [run_tflite_inference] never touches a file and invokes the
    interpreter at most once; when it returns a vector it has invoked it
    exactly once. *)
Theorem inference_invokes_at_most_once w interpreter input_data :
  let out := run_tflite_inference interpreter input_data w in
  fs out.2 = fs w /\
  (trace out.2 = trace w \/ trace out.2 = trace w ++ [interpreter_invoked]) /\
  (forall prediction, out.1 = inr prediction ->
     trace out.2 = trace w ++ [interpreter_invoked]).
Proof.
  assert (forall (r : exn + list F) (wf : world (F:=F) (IState:=IState)) evs,
            fs wf = fs w -> trace wf = trace w ++ evs ->
            (evs = [] /\ (exists e, r = inl e)) \/ evs = [interpreter_invoked] ->
            fs (r, wf).2 = fs w /\
            (trace (r, wf).2 = trace w \/
             trace (r, wf).2 = trace w ++ [interpreter_invoked]) /\
            (forall prediction, (r, wf).1 = inr prediction ->
               trace (r, wf).2 = trace w ++ [interpreter_invoked])) as Hsum.
  { intros r wf evs Hfs Htr [[-> [e ->]] | ->]; cbn [fst snd]; rewrite Htr.
    - rewrite app_nil_r. split; [done|]. split; [by left|]. discriminate.
    - split; [done|]. split; [by right|]. done. }
  cbv zeta.
  unfold run_tflite_inference, mbind, M_bind, index, on_arena, of_arena, emit.
  destruct (get_input_details interpreter !! 0) as [input_index|];
    cbn beta iota delta [mret M_ret raise].
  2: { apply (Hsum _ _ []); [done | by rewrite app_nil_r | left; eauto]. }
  destruct (arena w) as [a|].
  2: { apply (Hsum _ _ []); [done | by rewrite app_nil_r | left; eauto]. }
  destruct (set_tensor interpreter input_index input_data a) as [e|a1].
  { apply (Hsum _ _ []); [done | by rewrite app_nil_r | left; eauto]. }
  cbn beta iota delta [fs arena trace].
  destruct (invoke interpreter a1) as [e|a2].
  { apply (Hsum _ _ [interpreter_invoked]); [done | done | by right]. }
  cbn beta iota delta [fs arena trace].
  destruct (get_output_details interpreter !! 0) as [output_index|];
    cbn beta iota delta [mret M_ret raise fs arena trace].
  2: { apply (Hsum _ _ [interpreter_invoked]); [done | done | by right]. }
  destruct (get_tensor interpreter output_index a2) as [e|output_data].
  { apply (Hsum _ _ [interpreter_invoked]); [done | done | by right]. }
  cbn beta iota.
  destruct output_data as [|prediction rest];
    cbn beta iota delta [mret M_ret raise fs arena trace];
    (apply (Hsum _ _ [interpreter_invoked]); [done | done | by right]).
Qed.
End InferenceMore.

Lemma inference_rejected_input_witness :
  app.run_tflite_inference
    (app.mkInterpreter None (fun a => inr a) [7] [1]
       demo.interpreter.(app.set_tensor) demo.interpreter.(app.invoke)
       demo.interpreter.(app.get_tensor))
    [] demo.ready
  = (inl (Exception "Cannot set tensor"), demo.ready).
Proof.
  refine (inference_rejected_input demo.ready _ [] None 7 _ _ _ _); reflexivity.
Defined.

Lemma inference_invoke_failure_witness :
  app.run_tflite_inference
    (app.mkInterpreter None (fun a => inr a) [0] [1]
       (fun _ _ a => inr a) demo.interpreter.(app.invoke)
       demo.interpreter.(app.get_tensor))
    [] demo.ready
  = (inl (Exception "Input tensor is not set"),
     app.mkWorld (app.fs demo.ready) (Some None) [app.interpreter_invoked]).
Proof.
  refine (inference_invoke_failure demo.ready _ [] None None 0 _ _ _ _ _); reflexivity.
Defined.

(** ** The result columns *)

Section ResultsMore.
Context {F : Type} {FO : FloatOps F} {IState : Type}.
Import np py app.
Variable env : Env (F:=F) (IState:=IState).

Implicit Types (w : world (F:=F) (IState:=IState)) (prediction v : list F).

(** A vector without NaN has a first maximum. *)
Lemma first_max_exists v :
  v <> [] ->
  (forall z, z ∈ v -> fle z z = true) ->
  exists i x,
    v !! i = Some x /\
    (forall k z, v !! k = Some z -> fle z x = true) /\
    (forall k z, k < i -> v !! k = Some z -> fle x z = false).
Proof.
  induction v as [|h t IH]; [done|]. intros _ Hnan.
  assert (fle h h = true) as Hh by (apply Hnan, list_elem_of_here).
  destruct t as [|h' t'].
  - exists 0, h. split; [done|]. split.
    + intros [|k] z Hk; simpl in Hk; [by injection Hk as <- | done].
    + intros k z Hk. lia.
  - destruct IH as (i & x & Hx & Hmax & Hbefore); [done | |].
    { intros z Hz. apply Hnan. by apply list_elem_of_further. }
    assert (fle x x = true) as Hxx by (apply (Hmax i x Hx)).
    destruct (fle x h) eqn:Hxh.
    + exists 0, h. split; [done|]. split.
      * intros [|k] z Hk; simpl in Hk; [by injection Hk as <- |].
        apply (fle_trans z x h); [by apply (Hmax k) | done].
      * intros k z Hk. lia.
    + exists (S i), x. split; [done|]. split.
      * intros [|k] z Hk; simpl in Hk; [injection Hk as <- | by apply (Hmax k)].
        destruct (fle_total h x Hh Hxx) as [? | Hc]; [done | congruence].
      * intros [|k] z Hlt Hk; simpl in Hk; [by injection Hk as <- |].
        apply (Hbefore k); [lia | done].
Qed.

Lemma dominant_label_index v idx_max label :
  dominant_label v = inr (idx_max, label) -> idx_max < length v.
Proof.
  unfold dominant_label. destruct v as [|x ip]; [discriminate|].
  destruct (argmax_bound (x :: ip)) as (i & Hi & Hlt); [done|]. rewrite Hi.
  destruct (EMOTION_LABELS !! i); [|discriminate]. by intros [= <- _].
Qed.

(** X10. On a vector without NaN the dominant label sits at the first
    maximum: the entry at its index is at least every entry of the vector
    and strictly above every entry before it, so the confidence shown is
    the largest probability. *)
Theorem dominant_label_is_first_maximum v idx_max label :
  (forall z, z ∈ v -> fle z z = true) ->
  dominant_label v = inr (idx_max, label) ->
  exists confidence,
    v !! idx_max = Some confidence /\
    (forall k z, v !! k = Some z -> fle z confidence = true) /\
    (forall k z, k < idx_max -> v !! k = Some z -> flt z confidence = true).
Proof.
  intros Hnan Hdom.
  assert (v <> []) as Hne by (intros ->; discriminate Hdom).
  destruct (first_max_exists v Hne Hnan) as (i & x & Hx & Hmax & Hbefore).
  pose proof (argmax_first_max v i x Hx Hmax Hbefore) as Hargmax.
  unfold dominant_label in Hdom. rewrite Hargmax in Hdom.
  destruct (EMOTION_LABELS !! i); [|discriminate]. injection Hdom as <- _.
  exists x. split; [done|]. split; [done|].
  intros k z Hlt Hk. unfold flt.
  by rewrite (Hmax k z Hk), (Hbefore k z Hlt Hk).
Qed.

(** X9. A vector that does not have exactly one entry per label never
    gets its bar chart: [show_results] raises, either while deriving the
    dominant label or when the data frame is built. *)
Theorem show_results_needs_one_entry_per_label w prediction :
  length prediction <> length EMOTION_LABELS ->
  exists e w' evs,
    show_results env prediction w = (inl e, w') /\
    fs w' = fs w /\
    trace w' = trace w ++ evs /\
    forall rows, st_bar_chart rows ∉ evs.
Proof.
  intros Hlen.
  unfold show_results, mbind, M_bind, emit, lift, index, DataFrame.
  destruct (dominant_label prediction) as [e|[idx_max label]] eqn:Hdom; cbn beta iota.
  - eexists _, _, _. split; [reflexivity|]. split; [reflexivity|].
    split; [reflexivity|]. intros rows.
    rewrite !not_elem_of_cons. repeat split; try discriminate. apply not_elem_of_nil.
  - destruct (lookup_lt_is_Some_2 prediction idx_max) as [confidence Hconf].
    { by apply (dominant_label_index prediction idx_max label). }
    rewrite Hconf. cbn beta iota delta [mret M_ret fs arena trace].
    rewrite length_map. destruct (Nat.eqb_spec (length prediction) (length EMOTION_LABELS));
      [done|]. cbn beta iota delta [raise fs arena trace].
    eexists _, _, _. split; [reflexivity|]. split; [reflexivity|].
    split; [by rewrite <- !app_assoc|]. intros rows. cbn [app].
    rewrite !not_elem_of_cons. repeat split; try discriminate. apply not_elem_of_nil.
Qed.
End ResultsMore.

(** X11. [get_feedback] answers with the fallback text exactly for the
    inputs that are not one of the eight labels; the lookup is
    case-sensitive, so a capitalised label is such an input. *)
Theorem get_feedback_fallback_iff_unknown label :
  (app.get_feedback label = app.fallback_feedback <-> label ∉ app.EMOTION_LABELS) /\
  (label ∈ app.EMOTION_LABELS ->
   app.get_feedback (py.capitalize label) = app.fallback_feedback).
Proof.
  split; [split|].
  - intros Hfb Hin.
    by destruct (feedback_dict_lookup_known label Hin) as (_ & _ & Hne).
  - intros Hout. unfold app.get_feedback, py.dict_get.
    by rewrite (feedback_dict_lookup_unknown label Hout).
  - rewrite EMOTION_LABELS_sorted. intros Hin.
    repeat (apply elem_of_cons in Hin as [-> | Hin]; [vm_compute; reflexivity|]).
    by apply elem_of_nil in Hin.
Qed.

Lemma dominant_label_is_first_maximum_witness :
  exists confidence,
    demo.probabilities !! 1 = Some confidence /\
    (forall k z, demo.probabilities !! k = Some z -> fle z confidence = true) /\
    (forall k z, k < 1 -> demo.probabilities !! k = Some z -> flt z confidence = true).
Proof.
  refine (dominant_label_is_first_maximum demo.probabilities 1 "calm" _ _).
  - intros z Hz. unfold demo.probabilities in Hz.
    repeat (apply elem_of_cons in Hz as [-> | Hz]; [reflexivity|]).
    by apply elem_of_nil in Hz.
  - reflexivity.
Defined.

Lemma show_results_needs_one_entry_per_label_witness :
  exists e w' evs,
    app.show_results demo.env [QFin (1#2); QFin (1#2)] demo.ready = (inl e, w') /\
    app.fs w' = app.fs demo.ready /\
    app.trace w' = app.trace demo.ready ++ evs /\
    forall rows, app.st_bar_chart rows ∉ evs.
Proof.
  refine (show_results_needs_one_entry_per_label demo.env demo.ready
            [QFin (1#2); QFin (1#2)] _).
  vm_compute. discriminate.
Defined.

(** ** One upload through the pipeline *)

Section AnalyseMore.
Context {F : Type} {FO : FloatOps F} {IState : Type}.
Import np py app.
Variable env : Env (F:=F) (IState:=IState).

Implicit Types (w : world (F:=F) (IState:=IState))
               (interpreter : Interpreter (F:=F) (IState:=IState)).

Lemma analyse_decoded_run w interpreter data mfcc :
  upload_written env w data ->
  upload_decodes env data mfcc ->
  let temp_path := tempfile_name env (fs w) ".wav" in
  analyse env interpreter data w =
  (run_tflite_inference interpreter (make_input (fix_length mfcc default_max_pad_len))
     ≫= show_results env)
    (mkWorld (delete temp_path (fs w)) (arena w)
       (trace w ++ [st_header "Hasil Analisis"; st_audio data;
                    tempfile_created temp_path; os_removed temp_path])).
Proof.
  intros Hwritten (audio & sample_rate & Hdec & Hmfcc) temp_path.
  unfold analyse. unfold mbind at 1 2 3 4 5. unfold M_bind at 1 2 3 4 5.
  unfold emit at 1 2. unfold NamedTemporaryFile_write.
  cbn beta iota delta [fs arena trace].
  unfold upload_written in Hwritten. rewrite Hwritten.
  cbn beta iota delta [fs arena trace]. fold temp_path.
  erewrite extract_decoded.
  2: { exists data, audio, sample_rate. split; [apply lookup_insert_eq | done]. }
  unfold os_remove. cbn beta iota delta [fs arena trace].
  rewrite lookup_insert_eq, !delete_insert_eq.
  by rewrite <- !app_assoc.
Qed.

Lemma analyse_undecodable_run w interpreter data e :
  upload_written env w data ->
  upload_undecodable env data e ->
  let temp_path := tempfile_name env (fs w) ".wav" in
  analyse env interpreter data w =
  (inr tt,
   mkWorld (delete temp_path (fs w)) (arena w)
     (trace w ++ [st_header "Hasil Analisis"; st_audio data;
                  tempfile_created temp_path;
                  st_error ("Error saat memproses file audio: " +:+ exn_str e);
                  os_removed temp_path])).
Proof.
  intros Hwritten Hfail temp_path.
  unfold analyse. unfold mbind at 1 2 3 4 5. unfold M_bind at 1 2 3 4 5.
  unfold emit at 1 2. unfold NamedTemporaryFile_write.
  cbn beta iota delta [fs arena trace].
  unfold upload_written in Hwritten. rewrite Hwritten.
  cbn beta iota delta [fs arena trace]. fold temp_path.
  erewrite extract_failed.
  2: { right. exists data. split; [apply lookup_insert_eq | exact Hfail]. }
  unfold os_remove. cbn beta iota delta [fs arena trace].
  rewrite lookup_insert_eq, !delete_insert_eq.
  by rewrite <- !app_assoc.
Qed.

(** X12. Once the upload is written to the scratch file, the decoder sees
    exactly the uploaded bytes, whatever was at the scratch path before:
    when they decode to [mfcc], the analysis is the inference on the
    normalised, reshaped [mfcc] followed by the result columns, started
    in a world where the scratch file has already been created and
    removed. *)
Theorem analyse_decoded w interpreter data mfcc :
  upload_written env w data ->
  upload_decodes env data mfcc ->
  let temp_path := tempfile_name env (fs w) ".wav" in
  analyse env interpreter data w =
  (run_tflite_inference interpreter (make_input (fix_length mfcc default_max_pad_len))
     ≫= show_results env)
    (mkWorld (delete temp_path (fs w)) (arena w)
       (trace w ++ [st_header "Hasil Analisis"; st_audio data;
                    tempfile_created temp_path; os_removed temp_path])).
Proof. apply analyse_decoded_run. Qed.

(** X13. An upload that is written to the scratch file and does not
    decode ends the request quietly: the error is shown, the scratch file
    is removed, the interpreter is left as it was, nothing else is drawn
    and the script does not raise. *)
Theorem analyse_undecodable w interpreter data e :
  upload_written env w data ->
  upload_undecodable env data e ->
  let temp_path := tempfile_name env (fs w) ".wav" in
  analyse env interpreter data w =
  (inr tt,
   mkWorld (delete temp_path (fs w)) (arena w)
     (trace w ++ [st_header "Hasil Analisis"; st_audio data;
                  tempfile_created temp_path;
                  st_error ("Error saat memproses file audio: " +:+ exn_str e);
                  os_removed temp_path])).
Proof. apply analyse_undecodable_run. Qed.
End AnalyseMore.

Lemma analyse_decoded_witness :
  app.analyse demo.env demo.interpreter demo.clip demo.ready =
  (app.run_tflite_inference demo.interpreter
     (app.make_input (app.fix_length (replicate 40 (map demo.sample_of_byte demo.clip))
                        app.default_max_pad_len))
     ≫= app.show_results demo.env)
    (app.mkWorld (delete "/tmp/tmpclip.wav" (app.fs demo.ready)) (Some None)
       [app.st_header "Hasil Analisis"; app.st_audio demo.clip;
        app.tempfile_created "/tmp/tmpclip.wav"; app.os_removed "/tmp/tmpclip.wav"]).
Proof.
  refine (analyse_decoded demo.env demo.ready demo.interpreter demo.clip
            (replicate 40 (map demo.sample_of_byte demo.clip)) eq_refl _).
  exists (map demo.sample_of_byte demo.clip), app.default_sr. split; reflexivity.
Defined.

Lemma analyse_undecodable_witness :
  app.analyse demo.env demo.interpreter [] demo.ready =
  (inr tt,
   app.mkWorld (delete "/tmp/tmpclip.wav" (app.fs demo.ready)) (Some None)
     [app.st_header "Hasil Analisis"; app.st_audio [];
      app.tempfile_created "/tmp/tmpclip.wav";
      app.st_error "Error saat memproses file audio: file is empty";
      app.os_removed "/tmp/tmpclip.wav"]).
Proof.
  refine (analyse_undecodable demo.env demo.ready demo.interpreter []
            (Exception "file is empty") eq_refl _).
  left. reflexivity.
Defined.

(** ** Which elements a run can emit *)

Section Emits.
Context {F : Type} {FO : FloatOps F} {IState : Type}.
Import np py app.

Implicit Types (w : world (F:=F) (IState:=IState))
               (P Q : event (F:=F) -> Prop).

Lemma only_emits_ret {A} P (a : A) : only_emits (IState:=IState) P (mret a).
Proof. intros w. exists []. by rewrite app_nil_r. Qed.

Lemma only_emits_raise {A} P (e : exn) : only_emits (IState:=IState) P (raise (A:=A) e).
Proof. intros w. exists []. by rewrite app_nil_r. Qed.

Lemma only_emits_lift {A} P (r : exn + A) : only_emits (IState:=IState) P (lift r).
Proof. intros w. exists []. by rewrite app_nil_r. Qed.

Lemma only_emits_emit P ev : P ev -> only_emits (IState:=IState) P (emit ev).
Proof. intros HP w. exists [ev]. split; [done|]. by apply Forall_singleton. Qed.

Lemma only_emits_bind {A B} P (m : M (world (F:=F) (IState:=IState)) A)
    (k : A -> M (world (F:=F) (IState:=IState)) B) :
  only_emits P m -> (forall a, only_emits P (k a)) -> only_emits P (m ≫= k).
Proof.
  intros Hm Hk w. unfold mbind, M_bind.
  destruct (Hm w) as (evs & Htr & HP).
  destruct (m w) as [[e|a] w1]; simpl in *.
  - by exists evs.
  - destruct (Hk a w1) as (evs' & Htr' & HP').
    exists (evs ++ evs'). split; [by rewrite Htr', Htr, app_assoc|].
    by apply Forall_app.
Qed.

Lemma only_emits_index {A} P (l : list A) i :
  only_emits P (index (F:=F) (IState:=IState) l i).
Proof. unfold index. destruct (l !! i); [apply only_emits_ret | apply only_emits_raise]. Qed.

Lemma only_emits_on_arena P (f : IState -> exn + IState) :
  only_emits P (on_arena (F:=F) f).
Proof.
  intros w. unfold on_arena. exists []. rewrite app_nil_r. split; [|done].
  destruct (arena w) as [a|]; [|done]. by destruct (f a).
Qed.

Lemma only_emits_of_arena {A} P (f : IState -> exn + A) :
  only_emits P (of_arena (F:=F) f).
Proof.
  intros w. unfold of_arena. exists []. rewrite app_nil_r. split; [|done].
  by destruct (arena w).
Qed.

Lemma only_emits_DataFrame P (prediction : list F) labels :
  only_emits P (DataFrame (IState:=IState) prediction labels).
Proof.
  unfold DataFrame. destruct (_ =? _); [apply only_emits_ret | apply only_emits_raise].
Qed.

Lemma only_emits_inference interpreter input_data :
  only_emits result_event
    (run_tflite_inference (F:=F) (IState:=IState) interpreter input_data).
Proof.
  unfold run_tflite_inference.
  repeat (apply only_emits_bind; [|intros ?]);
    auto using only_emits_index, only_emits_on_arena, only_emits_of_arena.
  by apply only_emits_emit.
Qed.

Lemma only_emits_show_results (env : Env (F:=F) (IState:=IState)) prediction :
  only_emits result_event (show_results env prediction).
Proof.
  unfold show_results.
  repeat (apply only_emits_bind; [|intros ?]);
    try match goal with p : (_ * _)%type |- _ => destruct p end;
    repeat (apply only_emits_bind; [|intros ?]);
    auto using only_emits_index, only_emits_lift, only_emits_DataFrame;
    by apply only_emits_emit.
Qed.
End Emits.

(** ** Whole runs of the script *)

Section MainMore.
Context {F : Type} {FO : FloatOps F} {IState : Type}.
Import np py app.
Variable env : Env (F:=F) (IState:=IState).

Implicit Types (w wf : world (F:=F) (IState:=IState))
               (interpreter : Interpreter (F:=F) (IState:=IState)).

(** An analysis whose scratch file cannot be created raises before any
    file exists. *)
Lemma analyse_not_created_run w interpreter data e :
  tempfile_write env (fs w) (tempfile_name env (fs w) ".wav") data
    = scratch_not_created e ->
  analyse env interpreter data w =
  (inl e,
   mkWorld (fs w) (arena w)
     (trace w ++ [st_header "Hasil Analisis"; st_audio data])).
Proof.
  intros Hout.
  unfold analyse. unfold mbind at 1 2 3. unfold M_bind at 1 2 3.
  unfold emit at 1 2. unfold NamedTemporaryFile_write.
  cbn beta iota delta [fs arena trace]. rewrite Hout.
  by rewrite <- !app_assoc.
Qed.

(** An analysis whose scratch file is created but not written raises and
    leaves the file where it is: [os.remove] is not reached. *)
Lemma analyse_write_failed_run w interpreter data e partial :
  let temp_path := tempfile_name env (fs w) ".wav" in
  tempfile_write env (fs w) temp_path data = scratch_write_failed e partial ->
  analyse env interpreter data w =
  (inl e,
   mkWorld (<[temp_path := partial]> (<[temp_path := []]> (fs w))) (arena w)
     (trace w ++ [st_header "Hasil Analisis"; st_audio data;
                  tempfile_created temp_path])).
Proof.
  intros temp_path Hout.
  unfold analyse. unfold mbind at 1 2 3. unfold M_bind at 1 2 3.
  unfold emit at 1 2. unfold NamedTemporaryFile_write.
  cbn beta iota delta [fs arena trace]. fold temp_path. rewrite Hout.
  by rewrite <- !app_assoc.
Qed.

(** What the trace of an analysis looks like once the upload is written,
    whatever the libraries do. *)
Lemma analyse_trace_shape w interpreter data :
  upload_written env w data ->
  let temp_path := tempfile_name env (fs w) ".wav" in
  exists evs1 evs2,
    trace (analyse env interpreter data w).2 =
      trace w ++ [st_header "Hasil Analisis"; st_audio data; tempfile_created temp_path]
      ++ evs1 ++ os_removed temp_path :: evs2 /\
    Forall error_event evs1 /\
    Forall result_event evs2.
Proof.
  intros Hwritten temp_path.
  unfold analyse. unfold mbind at 1 2 3 4 5. unfold M_bind at 1 2 3 4 5.
  unfold emit at 1 2. unfold NamedTemporaryFile_write.
  cbn beta iota delta [fs arena trace].
  unfold upload_written in Hwritten. rewrite Hwritten.
  cbn beta iota delta [fs arena trace]. fold temp_path.
  match goal with
  | |- context [extract_features_from_path env temp_path ?sr ?n ?m ?w0] =>
      destruct (extract_returns env w0 temp_path sr n m)
        as (r & w1 & Hrun & Hfs & _ & evs1 & Htr & Herr);
      rewrite Hrun
  end.
  cbn [fs arena trace] in Hfs, Htr.
  unfold os_remove. rewrite Hfs, lookup_insert_eq.
  assert (Forall error_event evs1) as Herr'.
  { apply Forall_forall. intros ev Hev. by destruct (Herr ev Hev) as [body ->]. }
  set (w2 := mkWorld _ (arena w1) (trace w1 ++ [os_removed temp_path])).
  destruct r as [features|].
  - destruct (only_emits_bind result_event _ _
                (only_emits_inference interpreter (make_input features))
                (only_emits_show_results env) w2) as (evs2 & Htr2 & Hres).
    exists evs1, evs2. split; [|done].
    cbn beta iota. transitivity (trace w2 ++ evs2); [exact Htr2|]. unfold w2. cbn [trace]. rewrite Htr. by rewrite <- !app_assoc.
  - exists evs1, []. split; [|done].
    unfold w2. cbn. rewrite Htr. by rewrite <- !app_assoc.
Qed.


Lemma main_loaded_run w interpreter a0 audio_file :
  model_loads env w interpreter a0 ->
  main env audio_file w =
  match audio_file with
  | Some data => analyse env interpreter data
  | None => emit (st_info "Silakan upload file audio untuk memulai analisis.")
  end
    (mkWorld (fs w) (Some a0)
       (trace w ++
        [st_set_page_config;
         st_title "⚡ AI Public Speaking Coach";
         st_markdown "Aplikasi ini sudah dioptimalkan untuk analisis yang lebih cepat menggunakan TensorFlow Lite.";
         st_sidebar_header "Upload Audio Anda";
         st_sidebar_file_uploader;
         st_sidebar_markdown "---";
         st_sidebar_markdown "Crafted with by **Raihan & Reynanda**"])).
Proof.
  intros Hload. unfold main, mbind, M_bind. unfold emit at 1. cbn beta iota.
  erewrite load_ok; [|exact Hload].
  unfold emit at 1 2 3 4 5 6. cbn beta iota delta [fs arena trace].
  by rewrite <- !app_assoc.
Qed.

(** X14. With a working model and nothing uploaded, the script draws the
    page, asks for a file and stops: no scratch file, no inference. *)
Theorem main_without_upload w interpreter a0 :
  model_loads env w interpreter a0 ->
  main env None w =
  (inr tt,
   mkWorld (fs w) (Some a0)
     (trace w ++
      [st_set_page_config;
       st_title "⚡ AI Public Speaking Coach";
       st_markdown "Aplikasi ini sudah dioptimalkan untuk analisis yang lebih cepat menggunakan TensorFlow Lite.";
       st_sidebar_header "Upload Audio Anda";
       st_sidebar_file_uploader;
       st_sidebar_markdown "---";
       st_sidebar_markdown "Crafted with by **Raihan & Reynanda**";
       st_info "Silakan upload file audio untuk memulai analisis."])).
Proof.
  intros Hload. rewrite (main_loaded_run w interpreter a0 None Hload).
  unfold emit. cbn [fs arena trace]. by rewrite <- !app_assoc.
Qed.

(** X15. A complete run: the model loads, the upload is written to the
    scratch file and decodes, and the interpreter answers with a vector of
    eight entries.  The script then
    returns normally; the files are as before (the scratch path apart),
    the arena is the one the invocation left, and the page shows the
    dominant label capitalised, its formatted confidence, the advice of
    [get_feedback] for that label and the bar chart that pairs the
    capitalised labels, in sorted order, with the vector. *)
Theorem main_full_run w interpreter a0 data mfcc input_index a1 a2
    output_index output_data prediction :
  model_loads env w interpreter a0 ->
  upload_written env w data ->
  upload_decodes env data mfcc ->
  get_input_details interpreter !! 0 = Some input_index ->
  set_tensor interpreter input_index
    (make_input (fix_length mfcc default_max_pad_len)) a0 = inr a1 ->
  invoke interpreter a1 = inr a2 ->
  get_output_details interpreter !! 0 = Some output_index ->
  get_tensor interpreter output_index a2 = inr output_data ->
  output_data !! 0 = Some prediction ->
  length prediction = 8 ->
  let temp_path := tempfile_name env (fs w) ".wav" in
  exists idx_max label confidence,
    dominant_label prediction = inr (idx_max, label) /\
    prediction !! idx_max = Some confidence /\
    main env (Some data) w =
    (inr tt,
     mkWorld (delete temp_path (fs w)) (Some a2)
       (trace w ++
        [st_set_page_config;
         st_title "⚡ AI Public Speaking Coach";
         st_markdown "Aplikasi ini sudah dioptimalkan untuk analisis yang lebih cepat menggunakan TensorFlow Lite.";
         st_sidebar_header "Upload Audio Anda";
         st_sidebar_file_uploader;
         st_sidebar_markdown "---";
         st_sidebar_markdown "Crafted with by **Raihan & Reynanda**";
         st_header "Hasil Analisis";
         st_audio data;
         tempfile_created temp_path;
         os_removed temp_path;
         interpreter_invoked;
         st_subheader "🧠 Emosi Dominan";
         st_metric "Emosi Terkuat Terdeteksi" (capitalize label)
                   (format_percent env confidence +:+ "% Keyakinan");
         st_markdown "### 💡 Saran untuk Anda";
         st_success (get_feedback label);
         st_subheader "📈 Distribusi Emosi";
         st_bar_chart (zip (map capitalize EMOTION_LABELS) prediction)])).
Proof.
  intros Hload Hwritten Hdec Hin Hset Hinvoke Hout Hget Hrow Hlen temp_path.
  destruct (argmax_bound prediction) as (idx & Hargmax & Hidx).
  { intros ->. discriminate Hlen. }
  rewrite Hlen in Hidx.
  destruct (label_at_index idx Hidx) as (label & Hlabel & _).
  assert (dominant_label prediction = inr (idx, label)) as Hdom.
  { unfold dominant_label. by rewrite Hargmax, Hlabel. }
  destruct (lookup_lt_is_Some_2 prediction idx) as [confidence Hconf]; [lia|].
  exists idx, label, confidence. split; [exact Hdom|]. split; [exact Hconf|].
  rewrite (main_loaded_run w interpreter a0 (Some data) Hload).
  rewrite (analyse_decoded_run env (mkWorld (fs w) (Some a0) _) interpreter data mfcc
             Hwritten Hdec).
  cbn beta iota zeta delta [fs arena trace]. fold temp_path.
  unfold mbind, M_bind.
  erewrite (run_tflite_inference_run _ interpreter _ a0 a1 a2 input_index output_index
              output_data prediction); [|done..].
  erewrite (show_results_run env _ prediction idx label confidence); [|done..].
  cbn beta iota delta [fs arena trace]. by rewrite <- !app_assoc.
Qed.

(** X16. Every run of the script, whatever the host and the upload,
    starts the page with [st.set_page_config] and never calls it again,
    and draws the upload widget, also when the model could not be
    loaded. *)
Theorem main_page_config_first w audio_file :
  exists evs,
    trace (main env audio_file w).2 = trace w ++ st_set_page_config :: evs /\
    (forall ev, ev ∈ evs -> ev <> st_set_page_config) /\
    st_sidebar_file_uploader ∈ evs.
Proof.
  destruct (load_cases env w) as [(it & a0 & Hok) | (e & Hfail)].
  - rewrite (main_loaded_run w it a0 audio_file Hok).
    destruct audio_file as [data|].
    + set (w0 := mkWorld (fs w) (Some a0)
                   (trace w ++
                    [st_set_page_config;
                     st_title "⚡ AI Public Speaking Coach";
                     st_markdown "Aplikasi ini sudah dioptimalkan untuk analisis yang lebih cepat menggunakan TensorFlow Lite.";
                     st_sidebar_header "Upload Audio Anda";
                     st_sidebar_file_uploader;
                     st_sidebar_markdown "---";
                     st_sidebar_markdown "Crafted with by **Raihan & Reynanda**"])).
      destruct (tempfile_write env (fs w0) (tempfile_name env (fs w0) ".wav") data)
        as [|e|e partial] eqn:Hout.
      * destruct (analyse_trace_shape w0 it data Hout)
          as (evs1 & evs2 & Htr & Herr & Hres).
        eexists. split.
        { rewrite Htr. unfold w0. cbn beta iota zeta delta [fs arena trace].
          rewrite <- !app_assoc. reflexivity. }
        cbn [app]. split.
        -- intros ev Hev.
           repeat (apply elem_of_cons in Hev as [-> | Hev]; [discriminate|]).
           apply elem_of_app in Hev as [Hev | Hev].
           { pose proof (proj1 (Forall_forall _ _) Herr ev Hev). by destruct ev. }
           apply elem_of_cons in Hev as [-> | Hev]; [discriminate|].
           pose proof (proj1 (Forall_forall _ _) Hres ev Hev). by destruct ev.
        -- do 3 apply list_elem_of_further. apply list_elem_of_here.
      * rewrite (analyse_not_created_run w0 it data e Hout).
        unfold w0. cbn [snd fs arena trace].
        eexists. split; [rewrite <- !app_assoc; reflexivity|]. cbn [app]. split.
        -- intros ev Hev.
           repeat (apply elem_of_cons in Hev as [-> | Hev]; [discriminate|]).
           by apply elem_of_nil in Hev.
        -- do 3 apply list_elem_of_further. apply list_elem_of_here.
      * rewrite (analyse_write_failed_run w0 it data e partial Hout).
        unfold w0. cbn [snd fs arena trace].
        eexists. split; [rewrite <- !app_assoc; reflexivity|]. cbn [app]. split.
        -- intros ev Hev.
           repeat (apply elem_of_cons in Hev as [-> | Hev]; [discriminate|]).
           by apply elem_of_nil in Hev.
        -- do 3 apply list_elem_of_further. apply list_elem_of_here.
    + unfold emit. cbn [snd fs arena trace].
      eexists. split; [rewrite <- !app_assoc; reflexivity|]. cbn [app]. split.
      * intros ev Hev.
        repeat (apply elem_of_cons in Hev as [-> | Hev]; [discriminate|]).
        by apply elem_of_nil in Hev.
      * do 3 apply list_elem_of_further. apply list_elem_of_here.
  - unfold main, mbind, M_bind. unfold emit at 1. cbn beta iota.
    match goal with
    | |- context [load_tflite_model env ?w0] =>
        destruct (load_failed env w0 e Hfail) as [a Hload]; rewrite Hload
    end.
    unfold emit. cbn beta iota delta [snd fs arena trace].
    eexists. split; [rewrite <- !app_assoc; reflexivity|]. cbn [app]. split.
    + intros ev Hev.
      repeat (apply elem_of_cons in Hev as [-> | Hev]; [discriminate|]).
      by apply elem_of_nil in Hev.
    + do 5 apply list_elem_of_further. apply list_elem_of_here.
Qed.
End MainMore.

Section MainRaises.
Context {F : Type} {FO : FloatOps F} {IState : Type}.
Import np py app.
Variable env : Env (F:=F) (IState:=IState).

Implicit Types (w wf : world (F:=F) (IState:=IState)).



End MainRaises.

(** *** The whole-run properties on the concrete host *)

Lemma main_without_upload_witness :
  app.main demo.env None demo.ready =
  (inr tt,
   app.mkWorld (app.fs demo.ready) (Some None)
     [app.st_set_page_config;
      app.st_title "⚡ AI Public Speaking Coach";
      app.st_markdown "Aplikasi ini sudah dioptimalkan untuk analisis yang lebih cepat menggunakan TensorFlow Lite.";
      app.st_sidebar_header "Upload Audio Anda";
      app.st_sidebar_file_uploader;
      app.st_sidebar_markdown "---";
      app.st_sidebar_markdown "Crafted with by **Raihan & Reynanda**";
      app.st_info "Silakan upload file audio untuk memulai analisis."]).
Proof.
  refine (main_without_upload demo.env demo.ready demo.interpreter None _).
  exists [Byte.x1c]. repeat split; vm_compute; reflexivity.
Defined.

Lemma main_full_run_witness :
  exists idx_max label confidence,
    app.dominant_label demo.probabilities = inr (idx_max, label) /\
    demo.probabilities !! idx_max = Some confidence /\
    (app.main demo.env (Some demo.clip) demo.ready).1 = inr tt /\
    app.st_success (app.get_feedback label)
      ∈ app.trace (app.main demo.env (Some demo.clip) demo.ready).2.
Proof.
  pose (mfcc := replicate 40 (map demo.sample_of_byte demo.clip)).
  pose (input := app.make_input (app.fix_length mfcc app.default_max_pad_len)).
  destruct (main_full_run demo.env demo.ready demo.interpreter None demo.clip mfcc
              0 (Some input) (Some input) 1 [demo.probabilities] demo.probabilities)
    as (idx_max & label & confidence & Hdom & Hconf & Hmain).
  - exists [Byte.x1c]. repeat split; vm_compute; reflexivity.
  - reflexivity.
  - exists (map demo.sample_of_byte demo.clip), app.default_sr. split; reflexivity.
  - reflexivity.
  - reflexivity.
  - reflexivity.
  - reflexivity.
  - reflexivity.
  - reflexivity.
  - reflexivity.
  - exists idx_max, label, confidence. split; [exact Hdom|]. split; [exact Hconf|].
    rewrite Hmain. split; [reflexivity|]. cbn [snd app.trace app].
    do 15 apply list_elem_of_further. apply list_elem_of_here.
Defined.


